(** * AI_TUTOR: the tutor tools of [backend/src/agent.py]

    A shallow embedding of the tool functions of the voice tutor
    ([list_topics], [select_topic], [set_mode], [explain_topic], [ask_quiz],
    [prompt_teachback], [evaluate_teachback]), of the session state they act
    on ([TutorState], [Userdata]) and of [load_content], followed by the
    properties of the specification that concern them.

    A Python [str] is modelled by the [string] of its UTF-8 bytes (a [str]
    with a lone surrogate has none and is left out): equality, concatenation
    and the substring test are those of the code points, [len] counts code
    points, and [strip] and [split] know the white space of Unicode. [lower]
    is a parameter, fixed on ASCII text only. *)

From Stdlib Require Import ZArith Lia Ascii String DecimalString.
From Stdlib Require Import PrimFloat FloatOps SpecFloat Uint63.
From stdpp Require Import gmap strings list.

Open Scope string_scope.

(** ** Python built-ins used by the tools *)

Module Py.

(** A byte that continues a character begun before it (binary 10xxxxxx). *)
Definition is_continuation (c : ascii) : bool :=
  let n := nat_of_ascii c in (128 <=? n)%nat && (n <? 192)%nat.

(** [len(s)]: the number of code points, one for each byte that does not
    continue a character. *)
Fixpoint len (s : string) : nat :=
  match s with
  | EmptyString => 0
  | String c r => if is_continuation c then len r else S (len r)
  end.

(** The characters of [s] in order, each as its UTF-8 bytes: a byte joins the
    character that follows it when that one begins with a continuation
    byte. *)
Fixpoint chars (s : string) : list string :=
  match s with
  | EmptyString => []
  | String c r =>
      match chars r with
      | [] => [String c EmptyString]
      | EmptyString :: us => String c EmptyString :: us
      | String d u :: us =>
          if is_continuation d then String c (String d u) :: us
          else String c EmptyString :: String d u :: us
      end
  end.

(** The code point that the bytes of one character encode. *)
Definition codepoint (u : string) : N :=
  match List.map N_of_ascii (list_ascii_of_string u) with
  | [a] => a
  | [a; b] => (a mod 32) * 64 + b mod 64
  | [a; b; c] => (a mod 16) * 4096 + (b mod 64) * 64 + c mod 64
  | [a; b; c; d] => (a mod 8) * 262144 + (b mod 64) * 4096 + (c mod 64) * 64 + d mod 64
  | _ => 0
  end%N.

(** [str.isspace] on one character: the white space of [str.strip] and
    [str.split], by code point. *)
Definition is_space (u : string) : bool :=
  let n := codepoint u in
  ((9 <=? n) && (n <=? 13) || (28 <=? n) && (n <=? 32)
   || (n =? 133) || (n =? 160) || (n =? 5760)
   || (8192 <=? n) && (n <=? 8202)
   || (n =? 8232) || (n =? 8233) || (n =? 8239) || (n =? 8287) || (n =? 12288))%N.

(** The text whose characters are [us]. *)
Fixpoint concat (us : list string) : string :=
  match us with
  | [] => EmptyString
  | u :: r => u +:+ concat r
  end.

(** [s.lstrip()], on characters *)
Fixpoint lstrip_chars (us : list string) : list string :=
  match us with
  | [] => []
  | u :: r => if is_space u then lstrip_chars r else us
  end.

(** [s.rstrip()], on characters *)
Fixpoint rstrip_chars (us : list string) : list string :=
  match us with
  | [] => []
  | u :: r =>
      match rstrip_chars r with
      | [] => if is_space u then [] else [u]
      | r' => u :: r'
      end
  end.

(** [s.strip()] *)
Definition strip (s : string) : string :=
  concat (rstrip_chars (lstrip_chars (chars s))).

(** [s.split()] with no separator: the maximal runs of characters that are
    not white space, in order; [cur] is the run being read. *)
Fixpoint split_chars (cur : string) (us : list string) : list string :=
  match us with
  | [] =>
      match cur with EmptyString => [] | _ => [cur] end
  | u :: r =>
      if is_space u then
        match cur with
        | EmptyString => split_chars EmptyString r
        | _ => cur :: split_chars EmptyString r
        end
      else split_chars (cur +:+ u) r
  end.

Definition split (s : string) : list string := split_chars EmptyString (chars s).

(** A text of ASCII characters only. *)
Fixpoint is_ascii (s : string) : bool :=
  match s with
  | EmptyString => true
  | String c r => (nat_of_ascii c <? 128)%nat && is_ascii r
  end.

(** [str.lower] on one ASCII character. *)
Definition lower_char (c : ascii) : ascii :=
  let n := nat_of_ascii c in
  if (65 <=? n)%nat && (n <=? 90)%nat then ascii_of_nat (n + 32) else c.

(** [str.lower] on an ASCII text: the letters A-Z folded, each in its
    place. *)
Fixpoint lower_ascii (s : string) : string :=
  match s with
  | EmptyString => EmptyString
  | String c r => String (lower_char c) (lower_ascii r)
  end.

(** [s.lower()]. On text beyond ASCII it follows the tables and the context
    rules of Unicode, which are not reproduced here: [lower] is any function
    that is [lower_ascii] on ASCII text. *)
Class Text : Type := {
  lower : string -> string;
  lower_on_ascii : forall s, is_ascii s = true -> lower s = lower_ascii s
}.

(** [s.startswith(p)] *)
Fixpoint startswith (p s : string) : bool :=
  match p, s with
  | EmptyString, _ => true
  | String a p', String b s' => bool_decide (a = b) && startswith p' s'
  | String _ _, EmptyString => false
  end.

(** [needle in hay] on strings: [needle] occurs as a substring. *)
Fixpoint contains (needle hay : string) : bool :=
  startswith needle hay ||
  match hay with
  | EmptyString => false
  | String _ hay' => contains needle hay'
  end.

(** [sep.join(parts)] *)
Fixpoint join (sep : string) (parts : list string) : string :=
  match parts with
  | [] => ""
  | [p] => p
  | p :: rest => p +:+ sep +:+ join sep rest
  end.

(** [s.endswith(q)]: [q] is [s] or the end of what follows its first
    character. *)
Fixpoint endswith (q s : string) : bool :=
  bool_decide (s = q) ||
  match s with
  | EmptyString => false
  | String _ s' => endswith q s'
  end.

(** [str(n)] for an integer. *)
Definition str (n : Z) : string := NilZero.string_of_int (Z.to_int n).

(** [float(n)] for a machine-sized non-negative integer. *)
Definition float_of_int (n : Z) : float := PrimFloat.of_uint63 (Uint63.of_Z n).

(** [a / b] on integers: true division, a binary64 float. *)
Definition truediv (a b : Z) : float :=
  PrimFloat.div (float_of_int a) (float_of_int b).

(** [int(f)]: truncation towards zero; [None] where Python raises (infinities
    and NaN). *)
Definition int_of_float (f : float) : option Z :=
  match Prim2SF f with
  | S754_zero _ => Some 0%Z
  | S754_finite s m e =>
      let a := if (0 <=? e)%Z then (Z.pos m * 2 ^ e)%Z else (Z.pos m / 2 ^ (- e))%Z in
      Some (if s then (- a)%Z else a)
  | S754_infinity _ | S754_nan => None
  end.

(** [round(f)] with one argument, for a float that is not negative: the
    nearest integer, a tie going to the even one. *)
Definition round (f : float) : option Z :=
  match int_of_float f with
  | None => None
  | Some i =>
      let r := PrimFloat.sub f (float_of_int i) in
      let half := PrimFloat.div (float_of_int 1) (float_of_int 2) in
      if PrimFloat.ltb r half then Some i
      else if PrimFloat.ltb half r then Some (i + 1)%Z
      else if Z.even i then Some i else Some (i + 1)%Z
  end.

(** [sum(1 for x in xs if p(x))] *)
Fixpoint count_if {A} (p : A -> bool) (xs : list A) : nat :=
  match xs with
  | [] => 0
  | x :: r => if p x then S (count_if p r) else count_if p r
  end.

(** [[x for x in xs if p(x)]] *)
Fixpoint keep_if {A} (p : A -> bool) (xs : list A) : list A :=
  match xs with
  | [] => []
  | x :: r => if p x then x :: keep_if p r else keep_if p r
  end.

End Py.

(** ** Course content *)

(** A topic record is a JSON object; the tools read its string fields
    ["id"], ["title"], ["summary"], ["sample_question"] and
    ["teaching_prompt"], any of which a record may lack. *)
Abbreviation TopicRecord := (gmap string string).

(** The exceptions the modelled code can raise. *)
Inductive exn : Type :=
| KeyError (key : string)
| FileNotFoundError
| JSONDecodeError
| ValueError
| UnicodeDecodeError
| RecursionError
| OSError (what : string).

(** A JSON value as [json.loads] returns it; an object lists the items of
    the resulting [dict], whose keys are distinct. *)
#[warnings="-register-all"]
Inductive json : Type :=
| JNull
| JBool (b : bool)
| JNumber (literal : string)
| JString (s : string)
| JArray (items : list json)
| JObject (items : list (string * json)).

(** What [load_content] meets on its host, step by step: what
    [json_path.exists()] gives (whether the file is there, or the [OSError] of
    a path that cannot be examined, which [exists] lets through before
    Python 3.12), what [read_text(encoding="utf-8")] gives (the text, or the
    exception of a file that is a directory, unreadable or not UTF-8), and
    what [json.loads] makes of a text (a value, or its [JSONDecodeError], or
    the [RecursionError] of a text nested too deep). The path itself is
    computed from the file of the module, which the interpreter has just
    read. *)
Record Host : Type := mkHost {
  path_exists : exn + bool;
  read_text : exn + string;
  json_loads : string -> exn + json
}.

(** [load_content()] *)
Definition load_content (h : Host) : exn + json :=
  match path_exists h with
  | inl e => inl e
  | inr false => inl FileNotFoundError
  | inr true =>
      match read_text h with
      | inl e => inl e
      | inr text => json_loads h text
      end
  end.

(** The string fields of a JSON object, when all its values are strings. *)
Fixpoint fields_of (items : list (string * json)) : option TopicRecord :=
  match items with
  | [] => Some ∅
  | (key, JString value) :: rest =>
      match fields_of rest with
      | Some d => Some (<[key := value]> d)
      | None => None
      end
  | _ => None
  end.

Definition record_of (v : json) : option TopicRecord :=
  match v with
  | JObject items => fields_of items
  | _ => None
  end.

(** The documents the tools are modelled on: a list of objects with string
    fields, as a list of records. *)
Definition records_of (doc : json) : option (list TopicRecord) :=
  match doc with
  | JArray items => mapM record_of items
  | _ => None
  end.

(** [d.get(key, dflt)] *)
Definition get (d : TopicRecord) (key dflt : string) : string :=
  default dflt (d !! key).

(** [next((t for t in COURSE_CONTENT if t["id"] == tid), None)]: the first
    record whose stored identifier is [tid]; the subscript [t["id"]] raises on
    a record without that key. *)
Fixpoint next_by_id (content : list TopicRecord) (tid : string)
  : exn + option TopicRecord :=
  match content with
  | [] => inr None
  | t :: rest =>
      match t !! "id" with
      | None => inl (KeyError "id")
      | Some i => if bool_decide (i = tid) then inr (Some t) else next_by_id rest tid
      end
  end.

(** ** State and userdata *)

Record TutorState : Type := mkTutorState {
  mode : string;
  current_topic_id : option string;
  history : list (gmap string string)
}.

(** [TutorState()]: the defaults, [__post_init__] replacing the missing
    history by a fresh empty list. *)
Definition TutorState_new : TutorState :=
  {| mode := "learn"; current_topic_id := None; history := [] |}.

(** The synthesis voice parameters that [update_options] sets. *)
Record TTS : Type := mkTTS { voice : string; style : string }.

(** The [tts] attribute of the session object: absent ([hasattr] is false),
    [None], or a synthesiser. *)
Inductive tts_attribute : Type :=
| NoAttribute
| AttributeNone
| Synthesiser (t : TTS).

Record AgentSession : Type := mkAgentSession { tts : tts_attribute }.

(** [hasattr(session, "tts")] *)
Definition has_tts (s : AgentSession) : bool :=
  match tts s with
  | NoAttribute => false
  | _ => true
  end.

Record Userdata : Type := mkUserdata {
  tutor_state : TutorState;
  agent_session : option AgentSession
}.

(** The voice substrate: [session.tts.update_options(voice=..., style=...)]
    leaves the synthesiser in some state and either returns or raises an
    [Exception] with a message. *)
Class Substrate : Type := {
  update_options : TTS -> string -> string -> TTS * option string
}.

(** The iteration order of a Python [set] of strings: [set_iter l] lists
    [set(l)], every element of [l] once, in an order the language leaves
    open (it follows the string hashes of the process). *)
Class SetOrder : Type := {
  set_iter : list string -> list string;
  set_iter_NoDup : forall l, NoDup (set_iter l);
  set_iter_elem : forall l x, x ∈ set_iter l <-> x ∈ l
}.

(** ** Voice mapping *)

Definition VOICE_MAP : gmap string (string * string) :=
  {[ "learn" := ("en-US-matthew", "Promo");
     "quiz" := ("en-US-alicia", "Conversation");
     "teach_back" := ("en-US-ken", "Conversational") ]}.

(** ** Tools *)

(** What one tool invocation leaves behind: the string it returns or the
    exception it raises, the userdata afterwards, and the warnings it logged. *)
Record Outcome : Type := mkOutcome {
  reply : exn + string;
  after : Userdata;
  logged : list string
}.

Definition returns (s : string) (ud : Userdata) : Outcome :=
  {| reply := inr s; after := ud; logged := [] |}.

Definition raises (e : exn) (ud : Userdata) : Outcome :=
  {| reply := inl e; after := ud; logged := [] |}.

Definition with_topic_id (ud : Userdata) (tid : string) : Userdata :=
  {| tutor_state :=
       {| mode := mode (tutor_state ud);
          current_topic_id := Some tid;
          history := history (tutor_state ud) |};
     agent_session := agent_session ud |}.

Definition with_mode (ud : Userdata) (m : string) : Userdata :=
  {| tutor_state :=
       {| mode := m;
          current_topic_id := current_topic_id (tutor_state ud);
          history := history (tutor_state ud) |};
     agent_session := agent_session ud |}.

Definition with_session (ud : Userdata) (s : option AgentSession) : Userdata :=
  {| tutor_state := tutor_state ud; agent_session := s |}.

(** [f"{t['id']} ({t['title']})"] for one record. *)
Definition topic_entry (t : TopicRecord) : exn + string :=
  match t !! "id" with
  | None => inl (KeyError "id")
  | Some i =>
      match t !! "title" with
      | None => inl (KeyError "title")
      | Some ti => inr (i +:+ " (" +:+ ti +:+ ")")
      end
  end.

(** The list comprehension over the content, stopping at the first record
    that raises. *)
Fixpoint topic_entries (content : list TopicRecord) : exn + list string :=
  match content with
  | [] => inr []
  | t :: rest =>
      match topic_entry t with
      | inl e => inl e
      | inr s =>
          match topic_entries rest with
          | inl e => inl e
          | inr ss => inr (s :: ss)
          end
      end
  end.

(** The feedback band of a score. *)
Definition feedback_of (score : Z) : string :=
  if (8 <=? score)%Z then "Great — clear and covers main points."
  else if (5 <=? score)%Z then
    "Good — covers some points; try adding a short example or definition."
  else "Needs improvement — try a short definition and an example.".

Section Tools.

Context {text : Py.Text} {order : SetOrder} {substrate : Substrate}.
Variable COURSE_CONTENT : list TopicRecord.

(** [TutorState.topic] *)
Definition TutorState_topic (st : TutorState) : exn + option TopicRecord :=
  match current_topic_id st with
  | None => inr None
  | Some tid =>
      if bool_decide (tid = "") then inr None
      else next_by_id COURSE_CONTENT tid
  end.

(** [not topic] for a value that is [None] or a dict. *)
Definition falsy (o : option TopicRecord) : bool :=
  match o with
  | None => true
  | Some d => bool_decide (d = ∅)
  end.

Definition list_topics (ud : Userdata) : Outcome :=
  match topic_entries COURSE_CONTENT with
  | inl e => raises e ud
  | inr entries => returns ("Available topics: " +:+ Py.join "; " entries) ud
  end.

Definition select_topic (ud : Userdata) (topic_id : string) : Outcome :=
  let tid := Py.lower (Py.strip topic_id) in
  match next_by_id COURSE_CONTENT tid with
  | inl e => raises e ud
  | inr found =>
      if falsy found then
        match reply (list_topics ud) with
        | inl e => raises e ud
        | inr listing =>
            returns ("Topic '" +:+ topic_id +:+ "' not found. " +:+ listing) ud
        end
      else
        let ud' := with_topic_id ud tid in
        match default ∅ found !! "title" with
        | None => raises (KeyError "title") ud'
        | Some title => returns ("Selected topic: " +:+ title +:+ ".") ud'
        end
  end.

(** The body of the [try] block of [set_mode]: the session afterwards, and
    the message of the exception it raised, if any. *)
Definition try_update (s : AgentSession) (m : string) : AgentSession * option string :=
  match VOICE_MAP !! m with
  | None => (s, Some ("'" +:+ m +:+ "'"))
  | Some (voice, style) =>
      match tts s with
      | Synthesiser t =>
          let (t', raised) := update_options t voice style in
          ({| tts := Synthesiser t' |}, raised)
      | _ => (s, Some "'NoneType' object has no attribute 'update_options'")
      end
  end.

(** [logger.warning(f"TTS update failed: {e}")] when the [try] block raised. *)
Definition warning_of (raised : option string) : list string :=
  match raised with
  | Some e => ["TTS update failed: " +:+ e]
  | None => []
  end.

Definition set_mode (ud : Userdata) (mode : string) : Outcome :=
  let m := Py.lower (Py.strip mode) in
  if bool_decide (VOICE_MAP !! m = None) then
    returns "Invalid mode. Choose learn, quiz, or teach_back." ud
  else
    let ud1 := with_mode ud m in
    let session := agent_session ud1 in
    let (session', warnings) :=
      match session with
      | Some s =>
          if has_tts s then
            let (s', raised) := try_update s m in (Some s', warning_of raised)
          else (session, [])
      | None => (session, [])
      end in
    {| reply := inr ("Mode set to " +:+ m +:+ ".");
       after := with_session ud1 session';
       logged := warnings |}.

Definition explain_topic (ud : Userdata) : Outcome :=
  match TutorState_topic (tutor_state ud) with
  | inl e => raises e ud
  | inr topic =>
      if falsy topic then returns "No topic selected. Use select_topic first." ud
      else returns (get (default ∅ topic) "summary" "No summary available.") ud
  end.

Definition ask_quiz (ud : Userdata) : Outcome :=
  match TutorState_topic (tutor_state ud) with
  | inl e => raises e ud
  | inr topic =>
      if falsy topic then returns "No topic selected. Use select_topic first." ud
      else
        returns (get (default ∅ topic) "sample_question"
                   "No sample question available.") ud
  end.

Definition prompt_teachback (ud : Userdata) : Outcome :=
  match TutorState_topic (tutor_state ud) with
  | inl e => raises e ud
  | inr topic =>
      if falsy topic then returns "No topic selected. Use select_topic first." ud
      else
        returns (get (default ∅ topic) "teaching_prompt"
                   (get (default ∅ topic) "sample_question"
                      "Please explain this topic back to me.")) ud
  end.

(** The keyword list of [evaluate_teachback]:
    [[w for w in set(text_src.split()) if len(w) > 3][:12]]. *)
Definition keywords_of (topic : TopicRecord) : list string :=
  let text_src := Py.lower (get topic "title" "" +:+ " " +:+ get topic "summary" "") in
  take 12 (Py.keep_if (fun w => (3 <? Py.len w)%nat) (set_iter (Py.split text_src))).

(** The score of [evaluate_teachback] after clamping; [None] where [int]
    raises. *)
Definition teachback_score (topic : TopicRecord) (user_answer : string) : option Z :=
  let keywords := keywords_of topic in
  let user_lower := Py.lower user_answer in
  let match_ := Py.count_if (fun kw => Py.contains kw user_lower) keywords in
  let total := Nat.max 1 (length keywords) in
  match Py.int_of_float
          (PrimFloat.mul (Py.truediv (Z.of_nat match_) (Z.of_nat total))
             (Py.float_of_int 10)) with
  | None => None
  | Some score => Some (Z.max 1 (Z.min 10 score))
  end.

Definition evaluate_teachback (ud : Userdata) (user_answer : string) : Outcome :=
  match TutorState_topic (tutor_state ud) with
  | inl e => raises e ud
  | inr topic =>
      if falsy topic then returns "No topic selected." ud
      else
        match teachback_score (default ∅ topic) user_answer with
        | None => raises ValueError ud
        | Some score =>
            returns (feedback_of score +:+ " (score: " +:+ Py.str score +:+ "/10)") ud
        end
  end.

(** ** The tool surface *)

Inductive call : Type :=
| ListTopics
| SelectTopic (topic_id : string)
| SetMode (mode : string)
| ExplainTopic
| AskQuiz
| PromptTeachback
| EvaluateTeachback (user_answer : string).

Definition invoke (c : call) (ud : Userdata) : Outcome :=
  match c with
  | ListTopics => list_topics ud
  | SelectTopic topic_id => select_topic ud topic_id
  | SetMode mode => set_mode ud mode
  | ExplainTopic => explain_topic ud
  | AskQuiz => ask_quiz ud
  | PromptTeachback => prompt_teachback ud
  | EvaluateTeachback user_answer => evaluate_teachback ud user_answer
  end.

(** The userdata after a sequence of tool invocations, one at a time. *)
Fixpoint run (calls : list call) (ud : Userdata) : Userdata :=
  match calls with
  | [] => ud
  | c :: rest => run rest (after (invoke c ud))
  end.

End Tools.

(** The userdata that [entrypoint] builds: a new [TutorState], and the
    session with the Murf voice it starts with. *)
Definition entrypoint_userdata : Userdata :=
  {| tutor_state := TutorState_new;
     agent_session :=
       Some {| tts := Synthesiser {| voice := "en-US-matthew"; style := "Promo" |} |} |}.

(** ** The process *)

(** The state of the running process, as far as the tools can reach it: the
    module global [COURSE_CONTENT], bound when the module is imported, the
    userdata of the session, and the warnings logged so far. *)
Record Process : Type := mkProcess {
  course_content : list TopicRecord;
  userdata : Userdata;
  warnings : list string
}.

(** The tools once more, statement by statement over the process state:
    here [COURSE_CONTENT] is a global like any other, which a tool could
    rebind or change in place. *)
Module Proc.

Definition Run (A : Type) : Type := Process -> (exn + A) * Process.

Definition ret {A : Type} (a : A) : Run A := fun p => (inr a, p).

Definition bind {A B : Type} (f : A -> Run B) (m : Run A) : Run B :=
  fun p =>
    match m p with
    | (inl e, p') => (inl e, p')
    | (inr a, p') => f a p'
    end.

#[global] Instance Run_bind : MBind Run := @bind.

(** An expression that may raise, evaluated without touching the state. *)
Definition eval {A : Type} (r : exn + A) : Run A := fun p => (r, p).

(** Reading the global [COURSE_CONTENT]. *)
Definition COURSE_CONTENT : Run (list TopicRecord) :=
  fun p => (inr (course_content p), p).

(** Reading [ctx.userdata]. *)
Definition ctx_userdata : Run Userdata := fun p => (inr (userdata p), p).

(** An assignment to an attribute reached from [ctx.userdata]. *)
Definition assign (ud : Userdata) : Run unit :=
  fun p =>
    (inr tt,
     {| course_content := course_content p; userdata := ud; warnings := warnings p |}).

(** [logger.warning(msg)] *)
Definition logger_warning (msg : string) : Run unit :=
  fun p =>
    (inr tt,
     {| course_content := course_content p;
        userdata := userdata p;
        warnings := (warnings p ++ [msg])%list |}).

(** [t[key]] *)
Definition subscript (t : TopicRecord) (key : string) : exn + string :=
  match t !! key with
  | None => inl (KeyError key)
  | Some v => inr v
  end.

Section Tools.

Context {text : Py.Text} {order : SetOrder} {substrate : Substrate}.

(** [ctx.userdata.tutor_state.topic()] *)
Definition topic : Run (option TopicRecord) :=
  ud ← ctx_userdata;
  match current_topic_id (tutor_state ud) with
  | None => ret None
  | Some tid =>
      if bool_decide (tid = "") then ret None
      else
        content ← COURSE_CONTENT;
        eval (next_by_id content tid)
  end.

Definition list_topics : Run string :=
  content ← COURSE_CONTENT;
  entries ← eval (topic_entries content);
  ret ("Available topics: " +:+ Py.join "; " entries).

Definition select_topic (topic_id : string) : Run string :=
  let tid := Py.lower (Py.strip topic_id) in
  content ← COURSE_CONTENT;
  found ← eval (next_by_id content tid);
  if falsy found then
    listing ← list_topics;
    ret ("Topic '" +:+ topic_id +:+ "' not found. " +:+ listing)
  else
    ud ← ctx_userdata;
    assign (with_topic_id ud tid);;
    title ← eval (subscript (default ∅ found) "title");
    ret ("Selected topic: " +:+ title +:+ ".").

(** The [try] statement of [set_mode]: the body up to the statement that
    raises, and the handler logging the exception. *)
Definition try_update_options (s : AgentSession) (m : string) : Run unit :=
  match VOICE_MAP !! m with
  | None => logger_warning ("TTS update failed: " +:+ "'" +:+ m +:+ "'")
  | Some (voice, style) =>
      match tts s with
      | Synthesiser t =>
          let (t', raised) := update_options t voice style in
          ud ← ctx_userdata;
          assign (with_session ud (Some {| tts := Synthesiser t' |}));;
          match raised with
          | Some e => logger_warning ("TTS update failed: " +:+ e)
          | None => ret tt
          end
      | _ =>
          logger_warning
            ("TTS update failed: "
             +:+ "'NoneType' object has no attribute 'update_options'")
      end
  end.

Definition set_mode (mode : string) : Run string :=
  let m := Py.lower (Py.strip mode) in
  if bool_decide (VOICE_MAP !! m = None) then
    ret "Invalid mode. Choose learn, quiz, or teach_back."
  else
    ud ← ctx_userdata;
    assign (with_mode ud m);;
    ud ← ctx_userdata;
    match agent_session ud with
    | Some s => if has_tts s then try_update_options s m else ret tt
    | None => ret tt
    end;;
    ret ("Mode set to " +:+ m +:+ ".").

Definition explain_topic : Run string :=
  topic ← topic;
  if falsy topic then ret "No topic selected. Use select_topic first."
  else ret (get (default ∅ topic) "summary" "No summary available.").

Definition ask_quiz : Run string :=
  topic ← topic;
  if falsy topic then ret "No topic selected. Use select_topic first."
  else ret (get (default ∅ topic) "sample_question" "No sample question available.").

Definition prompt_teachback : Run string :=
  topic ← topic;
  if falsy topic then ret "No topic selected. Use select_topic first."
  else
    ret (get (default ∅ topic) "teaching_prompt"
           (get (default ∅ topic) "sample_question"
              "Please explain this topic back to me.")).

Definition evaluate_teachback (user_answer : string) : Run string :=
  topic ← topic;
  if falsy topic then ret "No topic selected."
  else
    score ← eval (match teachback_score (default ∅ topic) user_answer with
                  | None => inl ValueError
                  | Some score => inr score
                  end);
    ret (feedback_of score +:+ " (score: " +:+ Py.str score +:+ "/10)").

Definition invoke (c : call) : Run string :=
  match c with
  | ListTopics => list_topics
  | SelectTopic topic_id => select_topic topic_id
  | SetMode mode => set_mode mode
  | ExplainTopic => explain_topic
  | AskQuiz => ask_quiz
  | PromptTeachback => prompt_teachback
  | EvaluateTeachback user_answer => evaluate_teachback user_answer
  end.

(** The process after a sequence of tool invocations, one at a time. *)
Fixpoint run (calls : list call) (p : Process) : Process :=
  match calls with
  | [] => p
  | c :: rest => run rest (snd (invoke c p))
  end.

End Tools.

End Proc.

(** The process that serves a session: the module was imported, the
    statement [COURSE_CONTENT = load_content()] binding the records
    [content], and nothing is logged yet. *)
Definition serving (content : list TopicRecord) (ud : Userdata) : Process :=
  {| course_content := content; userdata := ud; warnings := [] |}.

(** ** The agent, the logger and the entry point *)

(** The line feed and the double quote of the instructions text. *)
Definition nl : string := String (ascii_of_nat 10) EmptyString.

Definition dquote : string := String (ascii_of_nat 34) EmptyString.

(** What [TeachTutorAgent.__init__] hands to [Agent.__init__]: the
    instructions and the names of the registered tools. *)
Record Agent : Type := mkAgent {
  instructions : string;
  tools : list string
}.

(** [TeachTutorAgent()]: the topics line is built like the listing of
    [list_topics], joined with a comma, and raises on the same records. *)
Definition TeachTutorAgent (COURSE_CONTENT : list TopicRecord) : exn + Agent :=
  match topic_entries COURSE_CONTENT with
  | inl e => inl e
  | inr entries =>
      let topics := Py.join ", " entries in
      inr {| instructions :=
               nl
               +:+ "You are a friendly tutor with three modes: learn, quiz, teach_back." +:+ nl
               +:+ "1) Greet user and ask which mode they want." +:+ nl
               +:+ "2) Ask which topic (user can ask list_topics)." +:+ nl
               +:+ "3) Learn: explain topic.summary (Matthew)." +:+ nl
               +:+ "4) Quiz: ask topic.sample_question (Alicia)." +:+ nl
               +:+ "5) Teach_back: prompt user to explain topic (Ken), then evaluate." +:+ nl
               +:+ "Users can switch modes anytime by " +:+ dquote +:+ "switch to X"
               +:+ dquote +:+ "." +:+ nl
               +:+ "Available topics: " +:+ topics +:+ nl;
             tools :=
               ["list_topics"; "select_topic"; "set_mode"; "explain_topic"; "ask_quiz";
                "prompt_teachback"; "evaluate_teachback"] |}
  end.

(** The levels of [logging] that the module uses, with their numbers. *)
Inductive level : Type := DEBUG | INFO | WARNING | ERROR.

Definition levelno (l : level) : nat :=
  match l with
  | DEBUG => 10
  | INFO => 20
  | WARNING => 30
  | ERROR => 40
  end.

(** [logger.setLevel(logging.INFO)] *)
Definition logger_level : level := INFO.

(** [logger.log(l, msg)]: a record is emitted when the level is enabled for
    the logger. *)
Definition logger_log (l : level) (msg : string) (records : list (level * string))
  : list (level * string) :=
  if (levelno logger_level <=? levelno l)%nat then (records ++ [(l, msg)])%list
  else records.

(** What the awaits of [entrypoint] do: each returns, or raises an
    [Exception] with a message. An await that is cancelled (which raises a
    [BaseException] that no handler here catches) or that does not return is
    not modelled. *)
Record Awaits : Type := mkAwaits {
  connect_raises : option string;
  start_raises : option string;
  say_raises : option string;
  run_raises : option string
}.

(** The calls [entrypoint] makes on the job context and on the session. *)
Inductive step : Type :=
| OnMetricsCollected
| AddShutdownCallback
| CallConnect
| CallStart (agent : Agent)
| CallSay (text : string)
| CallRun.

(** What ends [entrypoint] early: an exception of an await, or of the
    construction of the agent. *)
Inductive failure : Type :=
| AwaitRaised (msg : string)
| AgentRaised (e : exn).

Record Entered : Type := mkEntered {
  failed : option failure;
  steps : list step;
  records : list (level * string);
  bound_userdata : Userdata
}.

(** [entrypoint(ctx)] from the construction of the userdata on: the
    registrations, [ctx.connect()], [session.start(agent=TeachTutorAgent(),
    ...)] with its arguments evaluated first, the greeting in its [try], the
    run loop in its [try]. The constructors of the session's plug-ins are taken
    to return. *)
Definition entrypoint (aw : Awaits) (COURSE_CONTENT : list TopicRecord) : Entered :=
  let userdata := entrypoint_userdata in
  let registered := [OnMetricsCollected; AddShutdownCallback] in
  match connect_raises aw with
  | Some e =>
      {| failed := Some (AwaitRaised e); steps := (registered ++ [CallConnect])%list;
         records := []; bound_userdata := userdata |}
  | None =>
      match TeachTutorAgent COURSE_CONTENT with
      | inl e =>
          {| failed := Some (AgentRaised e); steps := (registered ++ [CallConnect])%list;
             records := []; bound_userdata := userdata |}
      | inr agent =>
          match start_raises aw with
          | Some e =>
              {| failed := Some (AwaitRaised e);
                 steps := (registered ++ [CallConnect; CallStart agent])%list;
                 records := []; bound_userdata := userdata |}
          | None =>
              let greeting :=
                "Hello! I'm your tutor. Which mode would you like: learn, quiz, or teach-back?" in
              let after_say :=
                match say_raises aw with
                | Some _ =>
                    logger_log DEBUG
                      "session.say failed; agent will prompt when run() starts." []
                | None => []
                end in
              let after_run :=
                match run_raises aw with
                | Some e => logger_log ERROR ("session.run failed: " +:+ e) after_say
                | None => after_say
                end in
              {| failed := None;
                 steps :=
                   (registered ++ [CallConnect; CallStart agent; CallSay greeting; CallRun])%list;
                 records := after_run; bound_userdata := userdata |}
          end
      end
  end.

(** ** Notions the properties are stated with *)

(** The normal form of a tool argument: trimmed, then lower-cased. *)
Definition normalize {text : Py.Text} (s : string) : string := Py.lower (Py.strip s).

(** The three mode strings. *)
Definition valid_modes : list string := ["learn"; "quiz"; "teach_back"].

(** Records as the specification's data model has them: each carries its
    ["id"] and its ["title"]. *)
Definition well_formed (content : list TopicRecord) : Prop :=
  Forall (fun t => is_Some (t !! "id") /\ is_Some (t !! "title")) content.

(** The tokens of a topic's reference text that can become keywords, in the
    order of the text. *)
Definition long_tokens {text : Py.Text} (d : TopicRecord) : list string :=
  Py.keep_if (fun w => (3 <? Py.len w)%nat)
    (Py.split (Py.lower (get d "title" "" +:+ " " +:+ get d "summary" ""))).

(** The stored topic identifier, when there is one, resolves by the scan of
    the content. *)
Definition resolves (content : list TopicRecord) (st : TutorState) : Prop :=
  forall tid, current_topic_id st = Some tid ->
    exists t, next_by_id content tid = inr (Some t).

(** What the outcome of a tool makes of a process that leaves the global
    alone: the reply, the userdata afterwards, the logged warnings appended. *)
Definition in_process (o : Outcome) (p : Process) : (exn + string) * Process :=
  (reply o,
   {| course_content := course_content p;
      userdata := after o;
      warnings := (warnings p ++ logged o)%list |}).

(** [int((m / t) * 10)] as the code computes it, in binary64. *)
Definition float_score (m t : nat) : option Z :=
  Py.int_of_float
    (PrimFloat.mul (Py.truediv (Z.of_nat m) (Z.of_nat t)) (Py.float_of_int 10)).

Definition float_score_is_floor (m t : nat) : bool :=
  match float_score m t with
  | Some v => (v =? 10 * Z.of_nat m / Z.of_nat t)%Z
  | None => false
  end.

Definition float_score_agrees : bool :=
  List.forallb
    (fun t => List.forallb (fun m => float_score_is_floor m t) (List.seq 0 (S t)))
    (List.seq 1 12).

(** The voice and style of each mode, as [VOICE_MAP] lists them. *)
Definition voice_table : list (string * string * string) :=
  [("learn", "en-US-matthew", "Promo");
   ("quiz", "en-US-alicia", "Conversation");
   ("teach_back", "en-US-ken", "Conversational")].

(** ** The specification's wording, for comparison *)

(** The score as the specification words it:
    [round((matches / max(1, keyword_count)) * 10)], then clamped to
    [[1, 10]]. *)
Definition spec_score (matches keyword_count : nat) : option Z :=
  match Py.round
          (PrimFloat.mul
             (Py.truediv (Z.of_nat matches) (Z.of_nat (Nat.max 1 keyword_count)))
             (Py.float_of_int 10)) with
  | None => None
  | Some r => Some (Z.max 1 (Z.min 10 r))
  end.

(** The specification's required fields of a record. *)
Definition has_required_fields (t : TopicRecord) : Prop :=
  is_Some (t !! "id") /\ is_Some (t !! "title") /\ is_Some (t !! "summary").

(** The specification's test for a content document that must not load:
    missing, unreadable or unparsable, or holding a record without a required
    field. *)
Definition spec_malformed (h : Host) : Prop :=
  path_exists h ≠ inr true
  \/ (exists e, read_text h = inl e)
  \/ (exists text e, read_text h = inr text /\ json_loads h text = inl e)
  \/ (exists text doc records t,
        read_text h = inr text /\ json_loads h text = inr doc
        /\ records_of doc = Some records /\ t ∈ records /\ ~ has_required_fields t).

(** ** Sample data *)

(** [str.lower] on ASCII text, where it folds the letters A to Z and nothing
    else; the examples that lower a string use ASCII strings only. *)
Definition plain_text : Py.Text :=
  {| Py.lower := Py.lower_ascii; Py.lower_on_ascii := fun s _ => eq_refl |}.

(** The Kelvin sign U+212A, and a [lower] that, like Python's, takes
    ["TEACH_BAC"] followed by that sign to ["teach_back"]. *)
Definition kelvin : string :=
  String (ascii_of_nat 226) (String (ascii_of_nat 132) (String (ascii_of_nat 170) EmptyString)).

Definition kelvin_text : Py.Text.
Proof.
  refine {| Py.lower := fun s =>
              if Py.is_ascii s then Py.lower_ascii s
              else if bool_decide (s = "TEACH_BAC" +:+ kelvin) then "teach_back"
              else Py.lower_ascii s |}.
  intros s Hs. now rewrite Hs.
Defined.

(** The no-break space U+00A0. *)
Definition nbsp : string := String (ascii_of_nat 194) (String (ascii_of_nat 160) EmptyString).

(** A set that lists each string at its last occurrence in the list. *)
Definition last_seen_order : SetOrder :=
  {| set_iter := remove_dups;
     set_iter_NoDup := NoDup_remove_dups;
     set_iter_elem := fun l x => elem_of_remove_dups l x |}.

(** The same set listed backwards. *)
Definition backwards_order : SetOrder :=
  {| set_iter := fun l => reverse (remove_dups l);
     set_iter_NoDup := fun l =>
       proj2 (NoDup_Permutation_proper _ _ (reverse_Permutation (remove_dups l)))
         (NoDup_remove_dups l);
     set_iter_elem := fun l x =>
       iff_trans (elem_of_reverse x (remove_dups l)) (elem_of_remove_dups l x) |}.

(** A synthesiser whose update always succeeds, and one whose update always
    raises. *)
Definition obliging : Substrate :=
  {| update_options := fun _ v s => ({| voice := v; style := s |}, None) |}.

Definition failing : Substrate :=
  {| update_options := fun t _ _ => (t, Some "connection lost") |}.

(** A record like that of the specification's scenario, with three
    keywords. *)
Definition loops_topic : TopicRecord :=
  {[ "id" := "loops"; "title" := "Loops"; "summary" := "Loops repeat blocks" ]}.

(** The record of the specification's scenario. *)
Definition scenario_topic : TopicRecord :=
  {[ "id" := "loops"; "title" := "Loops"; "summary" := "Loops repeat code blocks" ]}.

(** The same record stored under a capitalised identifier. *)
Definition capital_topic : TopicRecord :=
  {[ "id" := "Loops"; "title" := "Loops"; "summary" := "Loops repeat blocks" ]}.

(** A record stored under the empty identifier. *)
Definition blank_topic : TopicRecord := {[ "id" := ""; "title" := "Untitled" ]}.

(** A topic without a word longer than three characters. *)
Definition ai_topic : TopicRecord :=
  {[ "id" := "ai"; "title" := "AI"; "summary" := "It is fun" ]}.

(** A topic with thirteen keywords, and an answer that holds ten of them. *)
Definition phonetic_topic : TopicRecord :=
  {[ "id" := "phonetic";
     "title" := "Phonetic alphabet";
     "summary" := "alfa bravo charlie delta echo foxtrot golf hotel india juliett kilo" ]}.

Definition phonetic_answer : string :=
  "delta echo foxtrot golf hotel india juliett kilo bravo charlie".

(** A document whose only record has neither title nor summary: the text
    [[{"id": "loops"}]], the value it parses to, a host whose file holds it,
    and its records. *)
Definition bare_text : string :=
  "[{" +:+ dquote +:+ "id" +:+ dquote +:+ ": " +:+ dquote +:+ "loops" +:+ dquote +:+ "}]".

Definition bare_json : json := JArray [JObject [("id", JString "loops")]].

Definition bare_host : Host :=
  {| path_exists := inr true;
     read_text := inr bare_text;
     json_loads := fun s =>
       if bool_decide (s = bare_text) then inr bare_json else inl JSONDecodeError |}.

Definition bare_document : list TopicRecord := [ {[ "id" := "loops" ]} ].

(** A host whose path is a directory, one whose file is not UTF-8, and one
    where the directory of the file cannot be searched. *)
Definition directory_host : Host :=
  {| path_exists := inr true;
     read_text := inl (OSError "Is a directory");
     json_loads := fun _ => inl JSONDecodeError |}.

Definition locked_host : Host :=
  {| path_exists := inl (OSError "Permission denied");
     read_text := inl (OSError "Permission denied");
     json_loads := fun _ => inl JSONDecodeError |}.

Definition latin1_host : Host :=
  {| path_exists := inr true;
     read_text := inl UnicodeDecodeError;
     json_loads := fun _ => inl JSONDecodeError |}.

(** Awaits of which the greeting and the run loop raise. *)
Definition greeting_and_run_fail : Awaits :=
  {| connect_raises := None; start_raises := None;
     say_raises := Some "no audio track"; run_raises := Some "room closed" |}.

(** The userdata of a session in which topic [tid] is selected. *)
Definition selected (tid : string) : Userdata :=
  with_topic_id entrypoint_userdata tid.

(** * Properties *)

(** ** The built-ins and the tools on examples *)

(** On ASCII text [str.lower] folds the letters A to Z, whatever it does
    elsewhere. *)
Example lower_ex {text : Py.Text} : Py.lower "Teach_Back 42" = "teach_back 42".
Proof. now rewrite Py.lower_on_ascii. Qed.

Example strip_ex : Py.strip (String "009" " a b  ") = "a b".
Proof. reflexivity. Qed.

Example split_ex :
  Py.split (" loops" +:+ String "010" "repeat  code ") = ["loops"; "repeat"; "code"].
Proof. reflexivity. Qed.

(** The no-break space is white space to [str.strip] and [str.split], and a
    character of two bytes; the length of a string counts characters. *)
Example nbsp_ex :
  Py.strip (nbsp +:+ "quiz" +:+ nbsp) = "quiz"
  /\ Py.split ("alfa" +:+ nbsp +:+ "bravo") = ["alfa"; "bravo"]
  /\ Py.chars "été là" = ["é"; "t"; "é"; " "; "l"; "à"]
  /\ Py.len "été" = 3 /\ Py.len "Né" = 2 /\ Py.len nbsp = 1.
Proof. vm_compute. repeat split. Qed.

Example contains_ex :
  Py.contains "oop" "loops" = true /\ Py.contains "pool" "loops" = false
  /\ Py.contains "" "loops" = true.
Proof. repeat split. Qed.

Example join_ex : Py.join "; " ["a"; "b"; "c"] = "a; b; c".
Proof. reflexivity. Qed.

Example round_ex :
  Py.round (Py.truediv 15 2) = Some 8%Z /\ Py.round (Py.truediv 13 2) = Some 6%Z
  /\ Py.int_of_float (Py.truediv 15 2) = Some 7%Z.
Proof. vm_compute. repeat split. Qed.

(** Keywords are longer than three characters, not three bytes: of the
    tokens of ["né été là-bas"] only the last is one. *)
Example long_token_ex :
  String.length "été" = 5
  /\ Py.keep_if (fun w => (3 <? Py.len w)%nat) (Py.split "né été là-bas") = ["là-bas"].
Proof. vm_compute. repeat split. Qed.

(** A mode wrapped in no-break spaces is trimmed like any other. *)
Example set_mode_nbsp_ex :
  reply (set_mode (text := plain_text) (substrate := obliging) entrypoint_userdata
           (nbsp +:+ "Quiz" +:+ nbsp))
  = inr "Mode set to quiz.".
Proof. vm_compute. reflexivity. Qed.

(** A mode that only lower-casing beyond ASCII turns into a valid one is
    accepted under a [lower] that does so. *)
Example set_mode_kelvin_ex :
  Py.is_ascii ("TEACH_BAC" +:+ kelvin) = false
  /\ reply (set_mode (text := kelvin_text) (substrate := obliging) entrypoint_userdata
              ("TEACH_BAC" +:+ kelvin))
     = inr "Mode set to teach_back.".
Proof. vm_compute. repeat split. Qed.

(** The scenario of the specification: select, explain, switch mode, quiz. *)
Example scenario_ex :
  let content := [scenario_topic] in
  let s1 := select_topic (text := plain_text) content entrypoint_userdata "LOOPS " in
  let s2 := explain_topic content (after s1) in
  let s3 := set_mode (text := plain_text) (substrate := obliging) (after s2) "quiz" in
  let s4 := ask_quiz content (after s3) in
  reply s1 = inr "Selected topic: Loops."
  /\ reply s2 = inr "Loops repeat code blocks"
  /\ reply s3 = inr "Mode set to quiz."
  /\ reply s4 = inr "No sample question available."
  /\ explain_topic content entrypoint_userdata
     = returns "No topic selected. Use select_topic first." entrypoint_userdata.
Proof. vm_compute. repeat split. Qed.

(** ** Strings *)

Lemma append_cons (c : ascii) (s t : string) :
  String c s +:+ t = String c (s +:+ t).
Proof. reflexivity. Qed.

Lemma append_nil_r (s : string) : s +:+ "" = s.
Proof.
  induction s as [|c s IH]; [reflexivity |].
  now rewrite append_cons, IH.
Qed.

Lemma append_assoc (a b c : string) : (a +:+ b) +:+ c = a +:+ b +:+ c.
Proof.
  induction a as [|x a IH]; [reflexivity |].
  now rewrite !append_cons, IH.
Qed.

Lemma startswith_spec (p s : string) :
  Py.startswith p s = true <-> exists r, s = p +:+ r.
Proof.
  revert s. induction p as [|a p IH]; intros s; simpl.
  - split; [intros _; now exists s | reflexivity].
  - destruct s as [|b s].
    + split; [discriminate | intros [r Hr]; rewrite append_cons in Hr; discriminate].
    + rewrite andb_true_iff, bool_decide_eq_true, IH. split.
      * intros [-> [r ->]]. now exists r.
      * intros [r Hr]. rewrite append_cons in Hr. injection Hr as -> ->.
        split; [reflexivity | now exists r].
Qed.

Lemma contains_spec (needle hay : string) :
  Py.contains needle hay = true <-> exists a b, hay = a +:+ needle +:+ b.
Proof.
  induction hay as [|c hay IH]; simpl.
  - rewrite orb_false_r, startswith_spec. split.
    + intros [r Hr]. now exists "", r.
    + intros [a [b Hab]]. destruct a; [now exists b |].
      rewrite append_cons in Hab. discriminate.
  - rewrite orb_true_iff, startswith_spec, IH. split.
    + intros [[r Hr] | [a [b ->]]].
      * now exists "", r.
      * now exists (String c a), b.
    + intros [a [b Hab]]. destruct a as [|x a].
      * left. now exists b.
      * right. rewrite append_cons in Hab. injection Hab as -> ->. now exists a, b.
Qed.

Lemma contains_middle (a needle b : string) :
  Py.contains needle (a +:+ needle +:+ b) = true.
Proof. apply contains_spec. now exists a, b. Qed.

Lemma contains_app_r (needle a hay : string) :
  Py.contains needle hay = true -> Py.contains needle (a +:+ hay) = true.
Proof.
  rewrite !contains_spec. intros [x [y ->]]. exists (a +:+ x), y.
  now rewrite append_assoc.
Qed.

Lemma contains_app_l (needle hay b : string) :
  Py.contains needle hay = true -> Py.contains needle (hay +:+ b) = true.
Proof.
  rewrite !contains_spec. intros [x [y ->]]. exists x, (y +:+ b).
  now rewrite !append_assoc.
Qed.

Lemma join_cons (sep p q : string) (rest : list string) :
  Py.join sep (p :: q :: rest) = p +:+ sep +:+ Py.join sep (q :: rest).
Proof. reflexivity. Qed.

Lemma contains_join (needle sep : string) (parts : list string) :
  (exists p, p ∈ parts /\ Py.contains needle p = true) ->
  Py.contains needle (Py.join sep parts) = true.
Proof.
  induction parts as [|p rest IH]; intros [x [Hx Hn]].
  - inversion Hx.
  - destruct rest as [|q rest].
    + apply list_elem_of_singleton in Hx as ->. exact Hn.
    + rewrite join_cons. apply elem_of_cons in Hx as [-> | Hx].
      * now apply contains_app_l.
      * apply contains_app_r, contains_app_r, IH. now exists x.
Qed.

(** ** The float arithmetic of the score *)

(** On every pair the score can meet (at most twelve keywords, no more
    matches than keywords) the float computation is the integer quotient:
    no rounding error of the division or of the product crosses an
    integer. *)
Lemma float_score_table : float_score_agrees = true.
Proof. vm_compute. reflexivity. Qed.

Lemma float_score_floor (m t : nat) :
  m <= t -> 1 <= t <= 12 ->
  float_score m t = Some (10 * Z.of_nat m / Z.of_nat t)%Z.
Proof.
  intros Hm Ht.
  pose proof float_score_table as Htab. unfold float_score_agrees in Htab.
  rewrite List.forallb_forall in Htab.
  specialize (Htab t). rewrite List.forallb_forall in Htab.
  assert (Hc : float_score_is_floor m t = true).
  { apply Htab; apply List.in_seq; lia. }
  unfold float_score_is_floor in Hc.
  destruct (float_score m t) as [v|]; [| discriminate].
  apply Z.eqb_eq in Hc. now subst.
Qed.

(** ** Counting and filtering *)

Lemma count_if_le {A} (p : A -> bool) (xs : list A) :
  Py.count_if p xs <= length xs.
Proof. induction xs as [|x xs IH]; simpl; [lia | destruct (p x); lia]. Qed.

Lemma count_if_all {A} (p : A -> bool) (xs : list A) :
  (forall x, x ∈ xs -> p x = true) -> Py.count_if p xs = length xs.
Proof.
  induction xs as [|x xs IH]; intros Hall; simpl; [reflexivity |].
  rewrite (Hall x) by apply list_elem_of_here.
  f_equal. apply IH. intros y Hy. apply Hall. now apply list_elem_of_further.
Qed.

Lemma count_if_none {A} (p : A -> bool) (xs : list A) :
  (forall x, x ∈ xs -> p x = false) -> Py.count_if p xs = 0.
Proof.
  induction xs as [|x xs IH]; intros Hnone; simpl; [reflexivity |].
  rewrite (Hnone x) by apply list_elem_of_here.
  apply IH. intros y Hy. apply Hnone. now apply list_elem_of_further.
Qed.

Lemma count_if_Permutation {A} (p : A -> bool) (xs ys : list A) :
  xs ≡ₚ ys -> Py.count_if p xs = Py.count_if p ys.
Proof.
  induction 1 as [|x xs ys _ IH|x y xs|xs ys zs _ IH1 _ IH2]; simpl.
  - reflexivity.
  - now rewrite IH.
  - destruct (p x), (p y); reflexivity.
  - now rewrite IH1.
Qed.

Lemma keep_if_elem {A} (p : A -> bool) (xs : list A) (x : A) :
  x ∈ Py.keep_if p xs <-> x ∈ xs /\ p x = true.
Proof.
  induction xs as [|y xs IH]; simpl.
  - split; [intros H; inversion H | intros [H _]; inversion H].
  - destruct (p y) eqn:Hy; rewrite ?elem_of_cons, IH; split.
    + intros [-> | [H1 H2]]; split; auto.
    + intros [[-> | H1] H2]; auto.
    + intros [H1 H2]; split; auto.
    + intros [[-> | H1] H2]; [congruence | auto].
Qed.

Lemma keep_if_NoDup {A} (p : A -> bool) (xs : list A) :
  NoDup xs -> NoDup (Py.keep_if p xs).
Proof.
  induction 1 as [|x xs Hx _ IH]; simpl; [constructor |].
  destruct (p x); [| exact IH].
  constructor; [| exact IH]. rewrite keep_if_elem. tauto.
Qed.

(** Whatever the iteration order, the set holds the same long tokens. *)
Lemma keep_if_set_iter_Permutation {order : SetOrder} (p : string -> bool)
    (tokens : list string) :
  Py.keep_if p (set_iter tokens) ≡ₚ remove_dups (Py.keep_if p tokens).
Proof.
  apply NoDup_Permutation.
  - apply keep_if_NoDup, set_iter_NoDup.
  - apply NoDup_remove_dups.
  - intros w. rewrite elem_of_remove_dups, !keep_if_elem, set_iter_elem. reflexivity.
Qed.

(** ** Looking a topic up *)

Lemma next_by_id_Some (content : list TopicRecord) (tid : string) (t : TopicRecord) :
  next_by_id content tid = inr (Some t) ->
  t ∈ content /\ t !! "id" = Some tid.
Proof.
  induction content as [|u rest IH]; simpl; [discriminate |].
  destruct (u !! "id") as [i|] eqn:Hi; [| discriminate].
  case_bool_decide as Heq.
  - intros [= ->]. subst i. split; [apply list_elem_of_here | exact Hi].
  - intros H. apply IH in H as [H1 H2]. split; [now apply list_elem_of_further | exact H2].
Qed.

Lemma next_by_id_not_empty (content : list TopicRecord) (tid : string) (t : TopicRecord) :
  next_by_id content tid = inr (Some t) -> t ≠ ∅.
Proof.
  intros H%next_by_id_Some Hempty. destruct H as [_ H].
  rewrite Hempty, lookup_empty in H. discriminate.
Qed.

(** A scan over records that all carry an identifier other than [tid]
    finds nothing. *)
Lemma next_by_id_miss (content : list TopicRecord) (tid : string) :
  Forall (fun t => exists i, t !! "id" = Some i /\ i ≠ tid) content ->
  next_by_id content tid = inr None.
Proof.
  induction 1 as [|t rest [i [Hi Hne]] _ IH]; simpl; [reflexivity |].
  rewrite Hi. now rewrite bool_decide_eq_false_2.
Qed.

(** A scan that passes only records with other identifiers before it meets
    [t] returns [t]. *)
Lemma next_by_id_first (before rest : list TopicRecord) (t : TopicRecord) (tid : string) :
  Forall (fun u => exists i, u !! "id" = Some i /\ i ≠ tid) before ->
  t !! "id" = Some tid ->
  next_by_id (before ++ t :: rest) tid = inr (Some t).
Proof.
  intros Hb Ht. induction Hb as [|u before [i [Hi Hne]] _ IH]; simpl.
  - rewrite Ht. now rewrite bool_decide_eq_true_2.
  - rewrite Hi. now rewrite bool_decide_eq_false_2.
Qed.

(** ** The selected topic *)

Section Scoring.

Context {text : Py.Text} {order : SetOrder} {substrate : Substrate}.
Variable COURSE_CONTENT : list TopicRecord.

Lemma topic_selected (st : TutorState) (d : TopicRecord) :
  TutorState_topic COURSE_CONTENT st = inr (Some d) ->
  exists tid, current_topic_id st = Some tid /\ tid ≠ ""
              /\ next_by_id COURSE_CONTENT tid = inr (Some d).
Proof.
  unfold TutorState_topic. destruct (current_topic_id st) as [tid|]; [| discriminate].
  case_bool_decide as Hne; [discriminate |]. intros H. now exists tid.
Qed.

Lemma topic_selected_truthy (st : TutorState) (d : TopicRecord) :
  TutorState_topic COURSE_CONTENT st = inr (Some d) -> falsy (Some d) = false.
Proof.
  intros [tid [_ [_ H]]]%topic_selected. simpl.
  apply bool_decide_eq_false_2. eapply next_by_id_not_empty, H.
Qed.

Lemma keywords_length (d : TopicRecord) : length (keywords_of d) <= 12.
Proof. unfold keywords_of. rewrite length_take. lia. Qed.

(** The score is the integer quotient, clamped. *)
Lemma teachback_score_floor (d : TopicRecord) (answer : string) :
  teachback_score d answer =
  Some (Z.max 1 (Z.min 10
     (10 * Z.of_nat (Py.count_if (fun kw => Py.contains kw (Py.lower answer)) (keywords_of d))
      / Z.max 1 (Z.of_nat (length (keywords_of d))))))%Z.
Proof.
  unfold teachback_score.
  pose proof (keywords_length d) as Hlen.
  pose proof (count_if_le (fun kw => Py.contains kw (Py.lower answer)) (keywords_of d)) as Hc.
  fold (float_score
          (Py.count_if (fun kw => Py.contains kw (Py.lower answer)) (keywords_of d))
          (Nat.max 1 (length (keywords_of d)))).
  rewrite float_score_floor by lia.
  now rewrite Nat2Z.inj_max.
Qed.

Lemma evaluate_teachback_reply (ud : Userdata) (d : TopicRecord) (answer : string) (score : Z) :
  TutorState_topic COURSE_CONTENT (tutor_state ud) = inr (Some d) ->
  teachback_score d answer = Some score ->
  evaluate_teachback COURSE_CONTENT ud answer =
  returns (feedback_of score +:+ " (score: " +:+ Py.str score +:+ "/10)") ud.
Proof.
  intros Ht Hs. unfold evaluate_teachback.
  rewrite Ht, (topic_selected_truthy _ _ Ht). simpl. now rewrite Hs.
Qed.

(** The keywords are distinct long tokens of the reference text, as many as
    there are, up to twelve. *)
Lemma keywords_of_spec (d : TopicRecord) :
  NoDup (keywords_of d)
  /\ (forall w, w ∈ keywords_of d -> w ∈ long_tokens d)
  /\ length (keywords_of d) = Nat.min 12 (length (remove_dups (long_tokens d))).
Proof.
  unfold keywords_of, long_tokens.
  set (tokens := Py.split _). set (long := fun w => (3 <? Py.len w)%nat).
  assert (Hnd : NoDup (Py.keep_if long (set_iter tokens)))
    by apply keep_if_NoDup, set_iter_NoDup.
  split; [| split].
  - eapply sublist_NoDup; [exact Hnd | apply sublist_take].
  - intros w Hw. apply elem_of_take in Hw as [i [Hw _]].
    apply list_elem_of_lookup_2 in Hw. apply keep_if_elem in Hw as [Hw Hl].
    apply keep_if_elem. split; [| exact Hl]. now apply (proj1 (set_iter_elem _ _)).
  - rewrite length_take. f_equal. apply Permutation_length.
    apply keep_if_set_iter_Permutation.
Qed.

End Scoring.

(** ** Lower-casing ASCII text *)

(** The examples compute with [plain_text]. On arguments that are ASCII once
    trimmed, and on topics and answers in ASCII, the tools give the same under
    every [lower]. *)
Lemma normalize_ascii {text : Py.Text} (s : string) :
  Py.is_ascii (Py.strip s) = true -> normalize s = normalize (text := plain_text) s.
Proof. intros Hs. unfold normalize. now rewrite Py.lower_on_ascii. Qed.

Lemma select_topic_ascii {text : Py.Text} (content : list TopicRecord) (ud : Userdata)
    (s : string) :
  Py.is_ascii (Py.strip s) = true ->
  select_topic content ud s = select_topic (text := plain_text) content ud s.
Proof. intros Hs. unfold select_topic. now rewrite (Py.lower_on_ascii _ Hs). Qed.

Lemma set_mode_ascii {text : Py.Text} {substrate : Substrate} (ud : Userdata) (s : string) :
  Py.is_ascii (Py.strip s) = true ->
  set_mode ud s = set_mode (text := plain_text) ud s.
Proof. intros Hs. unfold set_mode. now rewrite (Py.lower_on_ascii _ Hs). Qed.

Lemma evaluate_teachback_ascii {text : Py.Text} {order : SetOrder}
    (content : list TopicRecord) (ud : Userdata) (answer : string) :
  Py.is_ascii answer = true ->
  (forall d, TutorState_topic content (tutor_state ud) = inr (Some d) ->
     Py.is_ascii (get d "title" "" +:+ " " +:+ get d "summary" "") = true) ->
  evaluate_teachback content ud answer
  = evaluate_teachback (text := plain_text) content ud answer.
Proof.
  intros Ha Hd. unfold evaluate_teachback.
  destruct (TutorState_topic content (tutor_state ud)) as [e|[d|]]; try reflexivity.
  specialize (Hd d eq_refl). cbn [default id].
  unfold teachback_score, keywords_of.
  now rewrite (Py.lower_on_ascii _ Ha), (Py.lower_on_ascii _ Hd).
Qed.

(** So the score of the first counterexample is what every [lower] gives. *)
Example evaluate_any_lower_ex {text : Py.Text} :
  evaluate_teachback (order := last_seen_order) [loops_topic] (selected "loops")
    "Loops repeat"
  = returns
      "Good — covers some points; try adding a short example or definition. (score: 6/10)"
      (selected "loops").
Proof.
  rewrite evaluate_teachback_ascii; [vm_compute; reflexivity | reflexivity |].
  intros d Hd. vm_compute in Hd. injection Hd as <-. reflexivity.
Qed.

(** ** C1: the score formula *)

(** C1, as the specification words it, fails: with three keywords of which
    the answer holds two, the code truncates 6.67 to 6, where the rounding of
    the specification gives 7. *)
Lemma C1_round_counterexample :
  keywords_of (text := plain_text) (order := last_seen_order)
    loops_topic = ["loops"; "repeat"; "blocks"]
  /\ Py.count_if (fun kw => Py.contains kw (Py.lower (Text := plain_text) "Loops repeat"))
       ["loops"; "repeat"; "blocks"] = 2
  /\ evaluate_teachback (text := plain_text) (order := last_seen_order)
       [loops_topic] (selected "loops") "Loops repeat"
     = returns
         "Good — covers some points; try adding a short example or definition. (score: 6/10)"
         (selected "loops")
  /\ spec_score 2 3 = Some 7%Z.
Proof. vm_compute. repeat split; reflexivity. Qed.

(** C1 (amended): for every selected topic and every answer,
    [evaluate_teachback] computes the score as the integer part of
    [(matches / max(1, keyword_count)) * 10] (the quotient
    [10 * matches / max(1, keyword_count)] rounded down, not to the nearest
    integer) and clamps it to [[1, 10]]. The keywords are distinct
    lower-cased white-space tokens of title plus summary longer than three
    characters, as many as there are up to twelve; [matches] counts those
    occurring as substrings of the lower-cased answer. An answer matching no
    keyword yields score 1. *)
Theorem C1_score_floor_clamped {text : Py.Text} {order : SetOrder} (content : list TopicRecord)
    (ud : Userdata) (d : TopicRecord) (answer : string) :
  TutorState_topic content (tutor_state ud) = inr (Some d) ->
  let keywords := keywords_of d in
  let matches := Py.count_if (fun kw => Py.contains kw (Py.lower answer)) keywords in
  let score :=
    Z.max 1 (Z.min 10 (10 * Z.of_nat matches / Z.max 1 (Z.of_nat (length keywords)))) in
  NoDup keywords
  /\ (forall w, w ∈ keywords -> w ∈ long_tokens d)
  /\ length keywords = Nat.min 12 (length (remove_dups (long_tokens d)))
  /\ evaluate_teachback content ud answer
     = returns (feedback_of score +:+ " (score: " +:+ Py.str score +:+ "/10)") ud
  /\ (1 <= score <= 10)%Z
  /\ ((forall kw, kw ∈ keywords -> Py.contains kw (Py.lower answer) = false) ->
      matches = 0 /\ score = 1%Z).
Proof.
  intros Ht keywords matches score.
  destruct (keywords_of_spec d) as (Hnd & Htok & Hlen).
  split; [exact Hnd |]. split; [exact Htok |]. split; [exact Hlen |].
  split; [| split].
  - apply (evaluate_teachback_reply content ud d); [exact Ht |].
    apply teachback_score_floor.
  - unfold score. lia.
  - intros Hnone.
    assert (Hm : matches = 0) by (unfold matches; now apply count_if_none).
    split; [exact Hm |]. unfold score. rewrite Hm. simpl. rewrite Z.div_0_l; lia.
Qed.

Lemma C1_score_floor_clamped_witness :
  evaluate_teachback (text := plain_text) (order := last_seen_order)
    [loops_topic] (selected "loops") "Loops repeat"
  = returns
      "Good — covers some points; try adding a short example or definition. (score: 6/10)"
      (selected "loops").
Proof.
  destruct (C1_score_floor_clamped (text := plain_text) (order := last_seen_order) [loops_topic]
              (selected "loops") loops_topic "Loops repeat" eq_refl)
    as (_ & _ & _ & Hreply & _).
  vm_compute in Hreply. vm_compute. exact Hreply.
Defined.

(** ** Selecting a topic *)

Lemma next_by_id_hit (content : list TopicRecord) (tid : string) (t : TopicRecord) :
  Forall (fun u => is_Some (u !! "id")) content ->
  t ∈ content -> t !! "id" = Some tid ->
  exists t0, next_by_id content tid = inr (Some t0).
Proof.
  induction 1 as [|u rest [i Hi] _ IH]; intros Hin Hid; [inversion Hin |].
  simpl. rewrite Hi. case_bool_decide as Heq; [now exists u |].
  apply elem_of_cons in Hin as [-> | Hin]; [congruence | now apply IH].
Qed.

(** The record a scan returns is the first one that stores [tid]. *)
Lemma next_by_id_is_first (content : list TopicRecord) (tid : string) (t : TopicRecord) :
  next_by_id content tid = inr (Some t) ->
  exists before rest,
    content = (before ++ t :: rest)%list
    /\ Forall (fun u => exists i, u !! "id" = Some i /\ i ≠ tid) before.
Proof.
  induction content as [|u content IH]; simpl; [discriminate |].
  destruct (u !! "id") as [i|] eqn:Hi; [| discriminate].
  case_bool_decide as Heq.
  - intros [= ->]. exists [], content. split; [reflexivity | constructor].
  - intros (before & rest & -> & Hb)%IH. exists (u :: before), rest.
    split; [reflexivity |]. constructor; [now exists i | exact Hb].
Qed.

Lemma well_formed_ids (content : list TopicRecord) :
  well_formed content -> Forall (fun u => is_Some (u !! "id")) content.
Proof. intros Hwf. eapply Forall_impl; [exact Hwf | now intros u [Hu _]]. Qed.

(** On well-formed content the listing is built without an exception, and
    every stored identifier stands in one of its entries. *)
Lemma topic_entries_well_formed (content : list TopicRecord) :
  well_formed content ->
  exists entries,
    topic_entries content = inr entries
    /\ forall t i, t ∈ content -> t !! "id" = Some i ->
         exists e, e ∈ entries /\ Py.contains i e = true.
Proof.
  induction 1 as [|u rest [[i Hi] [ti Hti]] _ (entries & Hent & Hall)].
  - exists []. split; [reflexivity |]. intros t i Hin. inversion Hin.
  - exists ((i +:+ " (" +:+ ti +:+ ")") :: entries). split.
    + simpl. unfold topic_entry. now rewrite Hi, Hti, Hent.
    + intros t j [-> | Hin]%elem_of_cons Hj.
      * assert (j = i) as -> by congruence.
        exists (i +:+ " (" +:+ ti +:+ ")"). split; [apply list_elem_of_here |].
        apply (contains_middle "" i).
      * destruct (Hall t j Hin Hj) as (e & He & Hc).
        exists e. split; [now apply list_elem_of_further | exact Hc].
Qed.

Section Selecting.

Context {text : Py.Text} {order : SetOrder} {substrate : Substrate}.
Variable COURSE_CONTENT : list TopicRecord.

Lemma select_topic_found (ud : Userdata) (s title : string) (t : TopicRecord) :
  next_by_id COURSE_CONTENT (normalize s) = inr (Some t) ->
  t !! "title" = Some title ->
  select_topic COURSE_CONTENT ud s
  = returns ("Selected topic: " +:+ title +:+ ".") (with_topic_id ud (normalize s)).
Proof.
  intros Hfind Htitle. unfold select_topic. fold (normalize s). rewrite Hfind.
  simpl. rewrite bool_decide_eq_false_2 by (eapply next_by_id_not_empty, Hfind).
  now rewrite Htitle.
Qed.

Lemma select_topic_not_found (ud : Userdata) (s : string) (entries : list string) :
  next_by_id COURSE_CONTENT (normalize s) = inr None ->
  topic_entries COURSE_CONTENT = inr entries ->
  select_topic COURSE_CONTENT ud s
  = returns ("Topic '" +:+ s +:+ "' not found. "
             +:+ "Available topics: " +:+ Py.join "; " entries) ud.
Proof.
  intros Hfind Hent. unfold select_topic, list_topics. fold (normalize s).
  rewrite Hfind, Hent. reflexivity.
Qed.

End Selecting.

(** ** C2: selecting a known topic *)

(** C2, as the specification words it, fails: a record whose stored
    identifier is not in normal form cannot be selected by that identifier,
    because only the argument is normalised before the comparison; and a
    record that is found but has no title, which loading does not rule out,
    makes the call raise after the identifier is assigned. *)
Lemma C2_stored_id_counterexample :
  capital_topic !! "id" = Some "Loops"
  /\ normalize (text := plain_text) "Loops" = "loops"
  /\ select_topic (text := plain_text) [capital_topic] entrypoint_userdata "Loops"
     = returns "Topic 'Loops' not found. Available topics: Loops (Loops)"
         entrypoint_userdata
  /\ current_topic_id
       (tutor_state
          (after (select_topic (text := plain_text) [capital_topic] entrypoint_userdata
                    "Loops")))
     = None
  /\ select_topic (text := plain_text) bare_document entrypoint_userdata "loops"
     = raises (KeyError "title") (selected "loops").
Proof. vm_compute. repeat split; reflexivity. Qed.

(** C2 (amended): on content whose records all carry an identifier and a
    title, for every string [s] whose normal form (trimmed, lower-cased) is
    the stored identifier of a record, in particular for every stored
    identifier that is in normal form already, [select_topic(s)] sets
    [current_topic_id] to [normalize(s)] and returns
    ["Selected topic: <title>."] with the title of the first record storing
    that identifier (of the record itself when no other record stores it); the
    lookup is a linear scan that compares the normalised argument with the
    identifiers as stored. *)
Theorem C2_select_topic_hit {text : Py.Text} (content : list TopicRecord) (ud : Userdata)
    (s : string) (t : TopicRecord) :
  well_formed content ->
  t ∈ content ->
  t !! "id" = Some (normalize s) ->
  exists (t0 : TopicRecord) (title : string) (before rest : list TopicRecord),
    content = (before ++ t0 :: rest)%list
    /\ Forall (fun u => exists i, u !! "id" = Some i /\ i ≠ normalize s) before
    /\ t0 !! "id" = Some (normalize s)
    /\ t0 !! "title" = Some title
    /\ ((forall u, u ∈ content -> u !! "id" = Some (normalize s) -> u = t) -> t0 = t)
    /\ select_topic content ud s
       = returns ("Selected topic: " +:+ title +:+ ".") (with_topic_id ud (normalize s))
    /\ current_topic_id (tutor_state (after (select_topic content ud s)))
       = Some (normalize s)
    /\ Py.contains title ("Selected topic: " +:+ title +:+ ".") = true.
Proof.
  intros Hwf Hin Hid.
  destruct (next_by_id_hit content (normalize s) t (well_formed_ids _ Hwf) Hin Hid)
    as [t0 Hfind].
  destruct (next_by_id_Some _ _ _ Hfind) as [Hin0 Hid0].
  destruct (next_by_id_is_first _ _ _ Hfind) as (before & rest & Hsplit & Hbefore).
  assert (Htitle : is_Some (t0 !! "title")).
  { unfold well_formed in Hwf. rewrite Forall_forall in Hwf. now apply Hwf. }
  destruct Htitle as [title Htitle].
  exists t0, title, before, rest.
  rewrite (select_topic_found content ud s title t0 Hfind Htitle).
  repeat split; try assumption; try reflexivity.
  - intros Huniq. now apply Huniq.
  - apply contains_middle.
Qed.

Lemma C2_select_topic_hit_witness :
  let tid := normalize (text := plain_text) "LOOPS " in
  let out := select_topic (text := plain_text) [loops_topic] entrypoint_userdata "LOOPS " in
  exists (t0 : TopicRecord) (title : string) (before rest : list TopicRecord),
    [loops_topic] = (before ++ t0 :: rest)%list
    /\ Forall (fun u => exists i, u !! "id" = Some i /\ i ≠ tid) before
    /\ t0 !! "id" = Some tid
    /\ t0 !! "title" = Some title
    /\ ((forall u, u ∈ [loops_topic] -> u !! "id" = Some tid -> u = loops_topic) ->
        t0 = loops_topic)
    /\ out = returns ("Selected topic: " +:+ title +:+ ".")
               (with_topic_id entrypoint_userdata tid)
    /\ current_topic_id (tutor_state (after out)) = Some tid
    /\ Py.contains title ("Selected topic: " +:+ title +:+ ".") = true.
Proof.
  cbv zeta.
  apply (C2_select_topic_hit (text := plain_text) [loops_topic] entrypoint_userdata
           "LOOPS " loops_topic).
  - repeat constructor; vm_compute; eexists; reflexivity.
  - apply list_elem_of_here.
  - vm_compute. reflexivity.
Defined.

(** ** C8: selecting an unknown topic *)

(** C8, as the specification words it, fails: on a record without a title,
    which loading does not rule out, the listing raises, and with it the
    answer to an unknown topic; and a string that is none of the stored
    identifiers is found all the same when its trimmed, lower-cased form is
    one. *)
Lemma C8_missing_title_counterexample :
  (forall t, t ∈ bare_document -> t !! "id" = Some "loops")
  /\ normalize (text := plain_text) "recursion" = "recursion"
  /\ select_topic (text := plain_text) bare_document entrypoint_userdata "recursion"
     = raises (KeyError "title") entrypoint_userdata
  /\ (forall t, t ∈ [loops_topic] -> t !! "id" = Some "loops")
  /\ select_topic (text := plain_text) [loops_topic] entrypoint_userdata " LOOPS "
     = returns "Selected topic: Loops." (selected "loops").
Proof.
  split; [| split; [| split; [| split]]]; try (vm_compute; reflexivity);
    intros t Hin; apply list_elem_of_singleton in Hin as ->; reflexivity.
Qed.

(** C8 (amended): on content whose records all carry an identifier and a
    title, for every string [s] whose normal form (trimmed, lower-cased) is
    not the stored identifier of any record, [select_topic(s)] leaves the
    whole userdata, [current_topic_id] included, as it was, and returns
    ["Topic '<s>' not found. "] followed by the output of [list_topics], a
    string that contains ["not found"] and every stored identifier. *)
Theorem C8_select_topic_miss {text : Py.Text} (content : list TopicRecord) (ud : Userdata)
    (s : string) :
  well_formed content ->
  (forall t, t ∈ content -> t !! "id" ≠ Some (normalize s)) ->
  exists listing message,
    list_topics content ud = returns listing ud
    /\ message = "Topic '" +:+ s +:+ "' not found. " +:+ listing
    /\ select_topic content ud s = returns message ud
    /\ after (select_topic content ud s) = ud
    /\ Py.contains "not found" message = true
    /\ (forall t i, t ∈ content -> t !! "id" = Some i -> Py.contains i message = true).
Proof.
  intros Hwf Hmiss.
  destruct (topic_entries_well_formed content Hwf) as (entries & Hent & Hids).
  assert (Hfind : next_by_id content (normalize s) = inr None).
  { apply next_by_id_miss. unfold well_formed in Hwf.
    rewrite Forall_forall in Hwf |- *. intros t Hin.
    destruct (Hwf t Hin) as [[i Hi] _]. exists i. split; [exact Hi |].
    intros ->. now apply (Hmiss t Hin). }
  exists ("Available topics: " +:+ Py.join "; " entries).
  exists ("Topic '" +:+ s +:+ "' not found. "
          +:+ "Available topics: " +:+ Py.join "; " entries).
  rewrite (select_topic_not_found content ud s entries Hfind Hent).
  repeat split.
  - unfold list_topics. now rewrite Hent.
  - apply contains_spec.
    exists ("Topic '" +:+ s +:+ "' "), (". Available topics: " +:+ Py.join "; " entries).
    rewrite !append_assoc. reflexivity.
  - intros t i Hin Hi. destruct (Hids t i Hin Hi) as (e & He & Hc).
    apply (contains_app_r i "Topic '"), (contains_app_r i s).
    apply (contains_app_r i "' not found. "), (contains_app_r i "Available topics: ").
    apply contains_join. now exists e.
Qed.

Lemma C8_select_topic_miss_witness :
  exists listing message,
    list_topics [loops_topic] (selected "loops") = returns listing (selected "loops")
    /\ message = "Topic '" +:+ "Recursion" +:+ "' not found. " +:+ listing
    /\ select_topic (text := plain_text) [loops_topic] (selected "loops") "Recursion"
       = returns message (selected "loops")
    /\ after (select_topic (text := plain_text) [loops_topic] (selected "loops") "Recursion")
       = selected "loops"
    /\ Py.contains "not found" message = true
    /\ (forall t i, t ∈ [loops_topic] -> t !! "id" = Some i ->
        Py.contains i message = true).
Proof.
  apply (C8_select_topic_miss (text := plain_text)
           [loops_topic] (selected "loops") "Recursion").
  - repeat constructor; vm_compute; eexists; reflexivity.
  - intros t Hin. apply list_elem_of_singleton in Hin as ->. vm_compute. discriminate.
Defined.

Example select_topic_miss_ex :
  select_topic (text := plain_text) [loops_topic] (selected "loops") "Recursion"
  = returns "Topic 'Recursion' not found. Available topics: loops (Loops)"
      (selected "loops").
Proof. vm_compute. reflexivity. Qed.

(** ** Switching mode *)

Lemma VOICE_MAP_keys (m : string) :
  VOICE_MAP !! m = None <-> m ∉ valid_modes.
Proof.
  unfold VOICE_MAP, valid_modes.
  rewrite !not_elem_of_cons, !lookup_insert_None, lookup_singleton_None.
  split.
  - intros [[H1 H2] H3]. repeat split; try congruence. apply not_elem_of_nil.
  - intros (H1 & H2 & H3 & _). repeat split; congruence.
Qed.

Lemma valid_modes_normal {text : Py.Text} (m : string) :
  m ∈ valid_modes -> normalize m = m.
Proof.
  unfold valid_modes, normalize. rewrite !elem_of_cons.
  intros [-> | [-> | [-> | H]]]; [now rewrite Py.lower_on_ascii .. | inversion H].
Qed.

Section Switching.

Context {text : Py.Text} {substrate : Substrate}.

Lemma set_mode_invalid (ud : Userdata) (mode : string) :
  VOICE_MAP !! normalize mode = None ->
  set_mode ud mode = returns "Invalid mode. Choose learn, quiz, or teach_back." ud.
Proof.
  intros Hnone. unfold set_mode. fold (normalize mode).
  now rewrite bool_decide_eq_true_2.
Qed.

Lemma set_mode_valid (ud : Userdata) (mode : string) :
  VOICE_MAP !! normalize mode ≠ None ->
  reply (set_mode ud mode) = inr ("Mode set to " +:+ normalize mode +:+ ".")
  /\ tutor_state (after (set_mode ud mode))
     = tutor_state (with_mode ud (normalize mode)).
Proof.
  intros Hsome. unfold set_mode. fold (normalize mode).
  rewrite bool_decide_eq_false_2 by exact Hsome. simpl.
  destruct (agent_session ud) as [s|]; [| now repeat split].
  destruct (has_tts s); [| now repeat split].
  destruct (try_update s (normalize mode)) as [s' raised]. now repeat split.
Qed.

(** What a valid [set_mode] logs, by the session it meets. *)
Lemma set_mode_logged_synthesiser (ud : Userdata) (mode voice style : string) (t : TTS) :
  VOICE_MAP !! normalize mode = Some (voice, style) ->
  agent_session ud = Some {| tts := Synthesiser t |} ->
  logged (set_mode ud mode)
  = match snd (update_options t voice style) with
    | Some e => ["TTS update failed: " +:+ e]
    | None => []
    end.
Proof.
  intros Hv Hs. unfold set_mode. fold (normalize mode).
  rewrite bool_decide_eq_false_2 by congruence. simpl. rewrite Hs. simpl.
  unfold try_update. rewrite Hv. simpl.
  now destruct (update_options t voice style) as [t' [e|]].
Qed.

Lemma set_mode_logged_none (ud : Userdata) (mode : string) :
  VOICE_MAP !! normalize mode ≠ None ->
  agent_session ud = Some {| tts := AttributeNone |} ->
  logged (set_mode ud mode)
  = ["TTS update failed: 'NoneType' object has no attribute 'update_options'"].
Proof.
  intros Hv Hs. unfold set_mode. fold (normalize mode).
  rewrite bool_decide_eq_false_2 by exact Hv. simpl. rewrite Hs. simpl.
  unfold try_update. now destruct (VOICE_MAP !! normalize mode) as [[voice style]|].
Qed.

Lemma set_mode_logged_nothing (ud : Userdata) (mode : string) :
  agent_session ud = None \/ agent_session ud = Some {| tts := NoAttribute |} ->
  logged (set_mode ud mode) = [].
Proof.
  intros Hs. unfold set_mode. fold (normalize mode).
  case_bool_decide; [reflexivity |]. simpl.
  now destruct Hs as [-> | ->].
Qed.

End Switching.

(** ** C6: a valid mode is set whatever the synthesiser does *)

(** C6: for every [m] among learn, quiz and teach_back, [set_mode(m)]
    returns ["Mode set to <m>."], sets the mode to [m] and leaves topic and
    history alone, whether the update of the voice returns or raises. The
    update is attempted with the voice and style that [VOICE_MAP] gives for
    [m]; when it raises, with message [e], exactly the warning
    ["TTS update failed: <e>"] is logged, and when it returns, nothing is; a
    session whose [tts] is [None] makes the attempt raise, which is logged
    alike; no session, or a session without [tts], logs nothing. *)
Theorem C6_set_mode_valid {text : Py.Text} {substrate : Substrate} (ud : Userdata)
    (m : string) :
  m ∈ valid_modes ->
  reply (set_mode ud m) = inr ("Mode set to " +:+ m +:+ ".")
  /\ mode (tutor_state (after (set_mode ud m))) = m
  /\ current_topic_id (tutor_state (after (set_mode ud m)))
     = current_topic_id (tutor_state ud)
  /\ history (tutor_state (after (set_mode ud m))) = history (tutor_state ud)
  /\ (forall t, agent_session ud = Some {| tts := Synthesiser t |} ->
      exists voice style,
        VOICE_MAP !! m = Some (voice, style)
        /\ (forall e, snd (update_options t voice style) = Some e ->
            logged (set_mode ud m) = ["TTS update failed: " +:+ e])
        /\ (snd (update_options t voice style) = None -> logged (set_mode ud m) = []))
  /\ (agent_session ud = Some {| tts := AttributeNone |} ->
      logged (set_mode ud m)
      = ["TTS update failed: 'NoneType' object has no attribute 'update_options'"])
  /\ (agent_session ud = None \/ agent_session ud = Some {| tts := NoAttribute |} ->
      logged (set_mode ud m) = []).
Proof.
  intros Hm. pose proof (valid_modes_normal m Hm) as Hnorm.
  assert (Hsome : VOICE_MAP !! normalize m ≠ None).
  { rewrite Hnorm. intros Hnone. now apply VOICE_MAP_keys in Hnone. }
  destruct (set_mode_valid ud m Hsome) as (Hr & Hst).
  rewrite Hnorm in Hr, Hst. rewrite Hr, Hst.
  split; [reflexivity |]. split; [reflexivity |]. split; [reflexivity |].
  split; [reflexivity |]. split; [| split].
  - intros t Hs.
    destruct (VOICE_MAP !! m) as [[voice style]|] eqn:Hv; [| now rewrite Hnorm in Hsome].
    exists voice, style. split; [reflexivity |].
    assert (Hv' : VOICE_MAP !! normalize m = Some (voice, style)) by now rewrite Hnorm.
    rewrite (set_mode_logged_synthesiser ud m voice style t Hv' Hs).
    split; [now intros e -> | now intros ->].
  - intros Hs. now apply set_mode_logged_none.
  - intros Hs. now apply set_mode_logged_nothing.
Qed.

Lemma C6_set_mode_valid_witness :
  let out := set_mode (text := plain_text) (substrate := failing) entrypoint_userdata
               "teach_back" in
  reply out = inr "Mode set to teach_back."
  /\ mode (tutor_state (after out)) = "teach_back"
  /\ current_topic_id (tutor_state (after out)) = None
  /\ history (tutor_state (after out)) = []
  /\ logged out = ["TTS update failed: connection lost"].
Proof.
  destruct (C6_set_mode_valid (text := plain_text) (substrate := failing)
              entrypoint_userdata "teach_back")
    as (Hr & Hm & Ht & Hh & Hlog & _).
  { unfold valid_modes. do 2 apply list_elem_of_further. apply list_elem_of_here. }
  destruct (Hlog _ eq_refl) as (voice & style & Hv & Hraise & _).
  cbv zeta. rewrite Hr, Hm, Ht, Hh, (Hraise "connection lost" eq_refl).
  repeat split.
Defined.

Example set_mode_failing_ex :
  set_mode (text := plain_text) (substrate := failing) entrypoint_userdata "teach_back"
  = {| reply := inr "Mode set to teach_back.";
       after := with_mode entrypoint_userdata "teach_back";
       logged := ["TTS update failed: connection lost"] |}.
Proof. vm_compute. reflexivity. Qed.

Example set_mode_obliging_ex :
  set_mode (text := plain_text) (substrate := obliging) entrypoint_userdata "quiz"
  = {| reply := inr "Mode set to quiz.";
       after :=
         {| tutor_state := tutor_state (with_mode entrypoint_userdata "quiz");
            agent_session :=
              Some {| tts :=
                        Synthesiser
                          {| voice := "en-US-alicia"; style := "Conversation" |} |} |};
       logged := [] |}.
Proof. vm_compute. reflexivity. Qed.

(** ** C7: an invalid mode is rejected *)

(** C7, as the specification words it, fails: ["QUIZ"] is not one of the
    three mode strings, yet it is accepted, because the argument is trimmed
    and lower-cased before the test. *)
Lemma C7_raw_string_counterexample :
  ("QUIZ" ∉ valid_modes)
  /\ mode (tutor_state entrypoint_userdata) = "learn"
  /\ reply (set_mode (text := plain_text) (substrate := obliging) entrypoint_userdata "QUIZ")
     = inr "Mode set to quiz."
  /\ mode (tutor_state (after (set_mode (text := plain_text) (substrate := obliging)
                                 entrypoint_userdata "QUIZ")))
     = "quiz".
Proof.
  split; [| vm_compute; repeat split; reflexivity].
  unfold valid_modes. rewrite !not_elem_of_cons.
  repeat split; try discriminate. apply not_elem_of_nil.
Qed.

(** C7 (amended): for every string [m] whose normal form (trimmed,
    lower-cased) is not learn, quiz or teach_back, [set_mode(m)] leaves the
    userdata, its mode included, as it was, logs nothing, and returns, without
    raising, a rejection that names the three valid modes. *)
Theorem C7_set_mode_invalid {text : Py.Text} {substrate : Substrate} (ud : Userdata)
    (m : string) :
  normalize m ∉ valid_modes ->
  set_mode ud m = returns "Invalid mode. Choose learn, quiz, or teach_back." ud
  /\ mode (tutor_state (after (set_mode ud m))) = mode (tutor_state ud)
  /\ after (set_mode ud m) = ud
  /\ forall v, v ∈ valid_modes ->
       Py.contains v "Invalid mode. Choose learn, quiz, or teach_back." = true.
Proof.
  intros Hm. apply VOICE_MAP_keys in Hm.
  rewrite (set_mode_invalid ud m Hm). repeat split.
  unfold valid_modes. intros v. rewrite !elem_of_cons.
  intros [-> | [-> | [-> | Hv]]]; [reflexivity .. | inversion Hv].
Qed.

Lemma C7_set_mode_invalid_witness :
  set_mode (text := plain_text) (substrate := obliging) entrypoint_userdata "review"
  = returns "Invalid mode. Choose learn, quiz, or teach_back." entrypoint_userdata
  /\ mode (tutor_state (after (set_mode (text := plain_text) (substrate := obliging)
                                 entrypoint_userdata "review")))
     = mode (tutor_state entrypoint_userdata)
  /\ after (set_mode (text := plain_text) (substrate := obliging)
              entrypoint_userdata "review") = entrypoint_userdata
  /\ forall v, v ∈ valid_modes ->
       Py.contains v "Invalid mode. Choose learn, quiz, or teach_back." = true.
Proof.
  apply (C7_set_mode_invalid (text := plain_text) (substrate := obliging)
           entrypoint_userdata "review").
  unfold valid_modes. rewrite !not_elem_of_cons.
  repeat split; try (vm_compute; discriminate). apply not_elem_of_nil.
Defined.

(** ** C5: the feedback bands *)

Lemma endswith_app (a q : string) : Py.endswith q (a +:+ q) = true.
Proof.
  induction a as [|c a IH].
  - change ("" +:+ q) with q. destruct q; simpl;
      rewrite ?bool_decide_eq_true_2 by reflexivity; reflexivity.
  - rewrite append_cons. simpl. rewrite IH. apply orb_true_r.
Qed.

Lemma feedback_of_bands (score : Z) :
  ((8 <= score)%Z -> feedback_of score = "Great — clear and covers main points.")
  /\ ((5 <= score < 8)%Z ->
      feedback_of score
      = "Good — covers some points; try adding a short example or definition.")
  /\ ((score < 5)%Z ->
      feedback_of score = "Needs improvement — try a short definition and an example.").
Proof.
  unfold feedback_of. repeat split; intros Hs.
  - now rewrite (proj2 (Z.leb_le 8 score)).
  - rewrite (proj2 (Z.leb_gt 8 score)) by lia. now rewrite (proj2 (Z.leb_le 5 score)).
  - rewrite (proj2 (Z.leb_gt 8 score)) by lia. now rewrite (proj2 (Z.leb_gt 5 score)) by lia.
Qed.

Lemma full_marks {A} (xs : list A) :
  xs ≠ [] ->
  Z.max 1 (Z.min 10 (10 * Z.of_nat (length xs) / Z.max 1 (Z.of_nat (length xs)))) = 10%Z.
Proof.
  intros Hne. destruct xs as [|x xs]; [contradiction |]. simpl length.
  rewrite (Z.max_r 1 (Z.of_nat (S (length xs)))) by lia.
  rewrite Z.div_mul by lia. reflexivity.
Qed.

(** C5, as the specification words it, fails: a topic whose title and
    summary hold no word longer than three characters has no keyword, so every
    answer contains all of them, and the score is 1. *)
Lemma C5_no_keyword_counterexample :
  keywords_of (text := plain_text) (order := last_seen_order) ai_topic = []
  /\ (forall kw, kw ∈ keywords_of (text := plain_text) (order := last_seen_order) ai_topic ->
      Py.contains kw (Py.lower (Text := plain_text) "It is fun") = true)
  /\ evaluate_teachback (text := plain_text) (order := last_seen_order)
       [ai_topic] (selected "ai") "It is fun"
     = returns "Needs improvement — try a short definition and an example. (score: 1/10)"
         (selected "ai").
Proof.
  split; [vm_compute; reflexivity |]. split; [| vm_compute; reflexivity].
  intros kw Hkw. vm_compute in Hkw. inversion Hkw.
Qed.

(** C5 (amended): for every selected topic that has at least one keyword,
    an answer containing all of its keywords yields score exactly 10 and the
    "clear and covers main points" feedback. For every selected topic and
    answer the feedback is determined by the score (at least 8: "clear"; from
    5 to 7: "covers some points"; below 5: "needs improvement"), and the
    result ends with ["(score: N/10)"]. *)
Theorem C5_feedback_bands {text : Py.Text} {order : SetOrder} (content : list TopicRecord)
    (ud : Userdata) (d : TopicRecord) (answer : string) :
  TutorState_topic content (tutor_state ud) = inr (Some d) ->
  exists (score : Z) (message : string),
    teachback_score d answer = Some score
    /\ evaluate_teachback content ud answer = returns message ud
    /\ message = feedback_of score +:+ " (score: " +:+ Py.str score +:+ "/10)"
    /\ Py.endswith ("(score: " +:+ Py.str score +:+ "/10)") message = true
    /\ ((8 <= score)%Z -> feedback_of score = "Great — clear and covers main points.")
    /\ ((5 <= score < 8)%Z ->
        feedback_of score
        = "Good — covers some points; try adding a short example or definition.")
    /\ ((score < 5)%Z ->
        feedback_of score = "Needs improvement — try a short definition and an example.")
    /\ (keywords_of d ≠ [] ->
        (forall kw, kw ∈ keywords_of d -> Py.contains kw (Py.lower answer) = true) ->
        score = 10%Z
        /\ message = "Great — clear and covers main points. (score: 10/10)").
Proof.
  intros Ht.
  pose proof (teachback_score_floor d answer) as Hscore.
  set (score := Z.max 1 _) in Hscore.
  exists score, (feedback_of score +:+ " (score: " +:+ Py.str score +:+ "/10)").
  destruct (feedback_of_bands score) as (Hhigh & Hmid & Hlow).
  split; [exact Hscore |].
  split; [now apply (evaluate_teachback_reply content ud d) |].
  split; [reflexivity |].
  split.
  { replace (feedback_of score +:+ " (score: " +:+ Py.str score +:+ "/10)")
      with ((feedback_of score +:+ " ") +:+ "(score: " +:+ Py.str score +:+ "/10)")
      by (now rewrite append_assoc).
    apply endswith_app. }
  split; [exact Hhigh |]. split; [exact Hmid |]. split; [exact Hlow |].
  intros Hne Hall.
  assert (Hten : score = 10%Z).
  { unfold score. rewrite (count_if_all _ _ Hall). now apply full_marks. }
  split; [exact Hten |]. rewrite Hten. reflexivity.
Qed.

Lemma C5_feedback_bands_witness :
  exists (score : Z) (message : string),
    teachback_score (text := plain_text) (order := last_seen_order)
      loops_topic "Loops REPEAT code blocks."
    = Some score
    /\ evaluate_teachback (text := plain_text) (order := last_seen_order)
         [loops_topic] (selected "loops") "Loops REPEAT code blocks."
       = returns message (selected "loops")
    /\ message = feedback_of score +:+ " (score: " +:+ Py.str score +:+ "/10)"
    /\ Py.endswith ("(score: " +:+ Py.str score +:+ "/10)") message = true
    /\ ((8 <= score)%Z -> feedback_of score = "Great — clear and covers main points.")
    /\ ((5 <= score < 8)%Z ->
        feedback_of score
        = "Good — covers some points; try adding a short example or definition.")
    /\ ((score < 5)%Z ->
        feedback_of score = "Needs improvement — try a short definition and an example.")
    /\ (keywords_of (text := plain_text) (order := last_seen_order) loops_topic ≠ [] ->
        (forall kw, kw ∈ keywords_of (text := plain_text) (order := last_seen_order)
                           loops_topic ->
         Py.contains kw (Py.lower (Text := plain_text) "Loops REPEAT code blocks.") = true) ->
        score = 10%Z
        /\ message = "Great — clear and covers main points. (score: 10/10)").
Proof.
  apply (C5_feedback_bands (text := plain_text) (order := last_seen_order)
           [loops_topic] (selected "loops") loops_topic "Loops REPEAT code blocks.").
  vm_compute. reflexivity.
Defined.

Example evaluate_all_keywords_ex :
  evaluate_teachback (text := plain_text) (order := last_seen_order)
    [loops_topic] (selected "loops") "Loops REPEAT code blocks."
  = returns "Great — clear and covers main points. (score: 10/10)" (selected "loops").
Proof. vm_compute. reflexivity. Qed.

(** ** C3: determinism *)

(** With twelve long tokens or fewer, the truncation drops nothing and the
    keywords of two iteration orders are the same up to their order. *)
Lemma keywords_of_Permutation {text : Py.Text} (order1 order2 : SetOrder) (d : TopicRecord) :
  length (remove_dups (long_tokens d)) <= 12 ->
  keywords_of (order := order1) d ≡ₚ keywords_of (order := order2) d.
Proof.
  intros Hlen. unfold keywords_of.
  pose proof (keep_if_set_iter_Permutation (order := order1)
                (fun w => (3 <? Py.len w)%nat)
                (Py.split (Py.lower (get d "title" "" +:+ " " +:+ get d "summary" ""))))
    as H1.
  pose proof (keep_if_set_iter_Permutation (order := order2)
                (fun w => (3 <? Py.len w)%nat)
                (Py.split (Py.lower (get d "title" "" +:+ " " +:+ get d "summary" ""))))
    as H2.
  fold (long_tokens d) in H1, H2.
  rewrite !take_ge.
  - now rewrite H1, H2.
  - now rewrite (Permutation_length H2).
  - now rewrite (Permutation_length H1).
Qed.

(** C3, as the specification words it, fails: the keyword truncation keeps
    the first twelve elements of a set, and on a topic with thirteen keywords
    two iteration orders of that set drop different keywords, so that the same
    topic and answer score 7 ("covers some points") under one and 8 ("clear")
    under the other. *)
Lemma C3_iteration_order_counterexample :
  evaluate_teachback (text := plain_text) (order := last_seen_order)
    [phonetic_topic] (selected "phonetic") phonetic_answer
  = returns
      "Good — covers some points; try adding a short example or definition. (score: 7/10)"
      (selected "phonetic")
  /\ evaluate_teachback (text := plain_text) (order := backwards_order)
       [phonetic_topic] (selected "phonetic") phonetic_answer
     = returns "Great — clear and covers main points. (score: 8/10)" (selected "phonetic")
  /\ length (remove_dups (long_tokens (text := plain_text) phonetic_topic)) = 13
  /\ keywords_of (text := plain_text) (order := last_seen_order) phonetic_topic
     = ["phonetic"; "alphabet"; "alfa"; "bravo"; "charlie"; "delta"; "echo"; "foxtrot";
        "golf"; "hotel"; "india"; "juliett"]
  /\ keywords_of (text := plain_text) (order := backwards_order) phonetic_topic
     = ["kilo"; "juliett"; "india"; "hotel"; "golf"; "foxtrot"; "echo"; "delta";
        "charlie"; "bravo"; "alfa"; "alphabet"].
Proof. vm_compute. repeat split; reflexivity. Qed.

(** C3 (amended): the result of [evaluate_teachback] is a function of the
    selected topic, the answer and the iteration order of the keyword set:
    two invocations with the same selected topic and answer, whatever the rest
    of their session state, yield a feedback string and a score, an integer in
    [[1, 10]], that are identical when the set iterates in the same order
    (as within one process), and also across iteration orders when the topic
    has at most twelve distinct keywords. *)
Theorem C3_deterministic_given_order {text : Py.Text} (order1 order2 : SetOrder)
    (content : list TopicRecord) (ud1 ud2 : Userdata) (d : TopicRecord)
    (answer : string) :
  TutorState_topic content (tutor_state ud1) = inr (Some d) ->
  TutorState_topic content (tutor_state ud2) = inr (Some d) ->
  exists score1 score2 : Z,
    (1 <= score1 <= 10)%Z /\ (1 <= score2 <= 10)%Z
    /\ reply (evaluate_teachback (order := order1) content ud1 answer)
       = inr (feedback_of score1 +:+ " (score: " +:+ Py.str score1 +:+ "/10)")
    /\ reply (evaluate_teachback (order := order2) content ud2 answer)
       = inr (feedback_of score2 +:+ " (score: " +:+ Py.str score2 +:+ "/10)")
    /\ after (evaluate_teachback (order := order1) content ud1 answer) = ud1
    /\ after (evaluate_teachback (order := order2) content ud2 answer) = ud2
    /\ (keywords_of (order := order1) d = keywords_of (order := order2) d ->
        score1 = score2)
    /\ (length (remove_dups (long_tokens d)) <= 12 -> score1 = score2).
Proof.
  intros Ht1 Ht2.
  pose proof (teachback_score_floor (order := order1) d answer) as Hs1.
  pose proof (teachback_score_floor (order := order2) d answer) as Hs2.
  set (score1 := Z.max 1 _) in Hs1. set (score2 := Z.max 1 _) in Hs2.
  exists score1, score2.
  rewrite (evaluate_teachback_reply (order := order1) content ud1 d answer score1 Ht1 Hs1).
  rewrite (evaluate_teachback_reply (order := order2) content ud2 d answer score2 Ht2 Hs2).
  split; [unfold score1; lia |]. split; [unfold score2; lia |].
  do 4 (split; [reflexivity |]).
  split.
  - intros Heq. unfold score1, score2. now rewrite Heq.
  - intros Hlen. unfold score1, score2.
    pose proof (keywords_of_Permutation order1 order2 d Hlen) as Hperm.
    rewrite (count_if_Permutation _ _ _ Hperm).
    now rewrite (Permutation_length Hperm).
Qed.

Lemma C3_deterministic_given_order_witness :
  exists score1 score2 : Z,
    (1 <= score1 <= 10)%Z /\ (1 <= score2 <= 10)%Z
    /\ reply (evaluate_teachback (text := plain_text) (order := last_seen_order) [loops_topic]
                (selected "loops") "Loops repeat")
       = inr (feedback_of score1 +:+ " (score: " +:+ Py.str score1 +:+ "/10)")
    /\ reply (evaluate_teachback (text := plain_text) (order := backwards_order) [loops_topic]
                (with_mode (selected "loops") "teach_back") "Loops repeat")
       = inr (feedback_of score2 +:+ " (score: " +:+ Py.str score2 +:+ "/10)")
    /\ after (evaluate_teachback (text := plain_text) (order := last_seen_order) [loops_topic]
                (selected "loops") "Loops repeat")
       = selected "loops"
    /\ after (evaluate_teachback (text := plain_text) (order := backwards_order) [loops_topic]
                (with_mode (selected "loops") "teach_back") "Loops repeat")
       = with_mode (selected "loops") "teach_back"
    /\ (keywords_of (text := plain_text) (order := last_seen_order) loops_topic
        = keywords_of (text := plain_text) (order := backwards_order) loops_topic ->
        score1 = score2)
    /\ (length (remove_dups (long_tokens (text := plain_text) loops_topic)) <= 12 ->
        score1 = score2).
Proof.
  apply (C3_deterministic_given_order (text := plain_text)
           last_seen_order backwards_order [loops_topic]
           (selected "loops") (with_mode (selected "loops") "teach_back")
           loops_topic "Loops repeat").
  - vm_compute. reflexivity.
  - vm_compute. reflexivity.
Defined.

(** ** What a tool invocation changes *)

Section Frame.

Context {text : Py.Text} {order : SetOrder} {substrate : Substrate}.
Variable COURSE_CONTENT : list TopicRecord.

Lemma set_mode_tutor_state (ud : Userdata) (m : string) :
  tutor_state (after (set_mode ud m)) = tutor_state ud
  \/ tutor_state (after (set_mode ud m)) = tutor_state (with_mode ud (normalize m)).
Proof.
  destruct (VOICE_MAP !! normalize m) as [vs|] eqn:Hlook.
  - right. destruct (set_mode_valid ud m) as (_ & Hst); [congruence | exact Hst].
  - left. now rewrite (set_mode_invalid ud m Hlook).
Qed.

Lemma select_topic_after (ud : Userdata) (s : string) :
  after (select_topic COURSE_CONTENT ud s) = ud
  \/ exists t, next_by_id COURSE_CONTENT (normalize s) = inr (Some t)
               /\ after (select_topic COURSE_CONTENT ud s)
                  = with_topic_id ud (normalize s).
Proof.
  unfold select_topic. fold (normalize s).
  destruct (next_by_id COURSE_CONTENT (normalize s)) as [e|[t|]] eqn:Hfind; simpl.
  - now left.
  - case_bool_decide.
    + left. now destruct (reply (list_topics COURSE_CONTENT ud)).
    + right. exists t. split; [reflexivity |]. now destruct (t !! "title").
  - left. now destruct (reply (list_topics COURSE_CONTENT ud)).
Qed.

Lemma reading_tools_after (ud : Userdata) :
  after (list_topics COURSE_CONTENT ud) = ud
  /\ after (explain_topic COURSE_CONTENT ud) = ud
  /\ after (ask_quiz COURSE_CONTENT ud) = ud
  /\ after (prompt_teachback COURSE_CONTENT ud) = ud
  /\ forall answer, after (evaluate_teachback COURSE_CONTENT ud answer) = ud.
Proof.
  unfold list_topics, explain_topic, ask_quiz, prompt_teachback, evaluate_teachback.
  repeat split; try intros answer.
  - now destruct (topic_entries COURSE_CONTENT).
  - destruct (TutorState_topic COURSE_CONTENT (tutor_state ud)) as [e|o];
      [reflexivity | now destruct (falsy o)].
  - destruct (TutorState_topic COURSE_CONTENT (tutor_state ud)) as [e|o];
      [reflexivity | now destruct (falsy o)].
  - destruct (TutorState_topic COURSE_CONTENT (tutor_state ud)) as [e|o];
      [reflexivity | now destruct (falsy o)].
  - destruct (TutorState_topic COURSE_CONTENT (tutor_state ud)) as [e|o];
      [reflexivity |]. destruct (falsy o); [reflexivity |].
    now destruct (teachback_score (default ∅ o) answer).
Qed.

(** Every tool leaves the history as it was. *)
Lemma invoke_history (c : call) (ud : Userdata) :
  history (tutor_state (after (invoke COURSE_CONTENT c ud))) = history (tutor_state ud).
Proof.
  destruct (reading_tools_after ud) as (Hl & He & Hq & Hp & Hv).
  destruct c as [|s|m| | | |answer]; simpl.
  - now rewrite Hl.
  - destruct (select_topic_after ud s) as [-> | (t & _ & ->)]; reflexivity.
  - destruct (set_mode_tutor_state ud m) as [-> | ->]; reflexivity.
  - now rewrite He.
  - now rewrite Hq.
  - now rewrite Hp.
  - now rewrite Hv.
Qed.

Lemma invoke_resolves (c : call) (ud : Userdata) :
  resolves COURSE_CONTENT (tutor_state ud) ->
  resolves COURSE_CONTENT (tutor_state (after (invoke COURSE_CONTENT c ud))).
Proof.
  intros Hinv.
  destruct (reading_tools_after ud) as (Hl & He & Hq & Hp & Hv).
  destruct c as [|s|m| | | |answer]; simpl.
  - now rewrite Hl.
  - destruct (select_topic_after ud s) as [-> | (t & Hfind & ->)]; [exact Hinv |].
    intros tid [= <-]. now exists t.
  - destruct (set_mode_tutor_state ud m) as [-> | ->]; exact Hinv.
  - now rewrite He.
  - now rewrite Hq.
  - now rewrite Hp.
  - now rewrite Hv.
Qed.

Lemma run_resolves (calls : list call) (ud : Userdata) :
  resolves COURSE_CONTENT (tutor_state ud) ->
  resolves COURSE_CONTENT (tutor_state (run COURSE_CONTENT calls ud)).
Proof.
  revert ud. induction calls as [|c calls IH]; intros ud Hinv; simpl; [exact Hinv |].
  apply IH, invoke_resolves, Hinv.
Qed.

Lemma run_history (calls : list call) (ud : Userdata) :
  history (tutor_state (run COURSE_CONTENT calls ud)) = history (tutor_state ud).
Proof.
  revert ud. induction calls as [|c calls IH]; intros ud; simpl; [reflexivity |].
  now rewrite IH, invoke_history.
Qed.

(** What the accessor returns in a state whose identifier resolves. *)
Lemma topic_of_resolved (st : TutorState) :
  resolves COURSE_CONTENT st ->
  match current_topic_id st with
  | None => TutorState_topic COURSE_CONTENT st = inr None
  | Some tid =>
      exists t,
        t ∈ COURSE_CONTENT /\ t !! "id" = Some tid
        /\ next_by_id COURSE_CONTENT tid = inr (Some t)
        /\ (tid ≠ "" -> TutorState_topic COURSE_CONTENT st = inr (Some t))
  end.
Proof.
  intros Hinv. unfold TutorState_topic.
  destruct (current_topic_id st) as [tid|] eqn:Hid; [| reflexivity].
  destruct (Hinv tid Hid) as [t Hfind].
  destruct (next_by_id_Some _ _ _ Hfind) as [Hin Ht].
  exists t. repeat split; try assumption.
  intros Hne. now rewrite bool_decide_eq_false_2.
Qed.

End Frame.

(** ** C9: the selected topic resolves *)

(** C9, as the specification words it, fails: a record stored under the
    empty identifier can be selected, the identifier is then set and resolves
    by lookup, yet the accessor treats the empty string like [None] and
    returns no record. *)
Lemma C9_empty_id_counterexample :
  select_topic (text := plain_text) [blank_topic] entrypoint_userdata ""
  = returns "Selected topic: Untitled." (selected "")
  /\ current_topic_id (tutor_state (selected "")) = Some ""
  /\ next_by_id [blank_topic] "" = inr (Some blank_topic)
  /\ TutorState_topic [blank_topic] (tutor_state (selected "")) = inr None
  /\ explain_topic [blank_topic] (selected "")
     = returns "No topic selected. Use select_topic first." (selected "").
Proof. vm_compute. repeat split; reflexivity. Qed.

(** C9 (amended): the state of a new session has no topic selected, and
    every tool preserves the invariant that [current_topic_id], when set,
    resolves by the scan to a record of the content that stores it. In a state
    with that invariant, hence in every state reached from a new session, the
    accessor returns without failing: [None] when no topic is selected, and
    the resolved record when the selected identifier is a non-empty string. *)
Theorem C9_selected_topic_resolves {text : Py.Text} {order : SetOrder}
    {substrate : Substrate}
    (content : list TopicRecord) :
  resolves content (tutor_state entrypoint_userdata)
  /\ (forall (c : call) (ud : Userdata),
        resolves content (tutor_state ud) ->
        resolves content (tutor_state (after (invoke content c ud))))
  /\ (forall calls : list call,
        let st := tutor_state (run content calls entrypoint_userdata) in
        match current_topic_id st with
        | None => TutorState_topic content st = inr None
        | Some tid =>
            exists t,
              t ∈ content /\ t !! "id" = Some tid
              /\ next_by_id content tid = inr (Some t)
              /\ (tid ≠ "" -> TutorState_topic content st = inr (Some t))
        end).
Proof.
  assert (Hinit : resolves content (tutor_state entrypoint_userdata))
    by (intros tid Htid; discriminate Htid).
  split; [exact Hinit |]. split.
  - intros c ud. apply invoke_resolves.
  - intros calls st. apply topic_of_resolved. now apply run_resolves.
Qed.

(** ** C10: the history is never written *)

(** C10: the history of a new session is the empty list, no tool invocation
    changes the history, and so it is still the empty list after any sequence
    of invocations. *)
Theorem C10_history_stays_empty {text : Py.Text} {order : SetOrder}
    {substrate : Substrate}
    (content : list TopicRecord) :
  history TutorState_new = []
  /\ history (tutor_state entrypoint_userdata) = []
  /\ (forall (c : call) (ud : Userdata),
        history (tutor_state (after (invoke content c ud))) = history (tutor_state ud))
  /\ (forall calls : list call,
        history (tutor_state (run content calls entrypoint_userdata)) = []).
Proof.
  repeat split.
  - intros c ud. apply invoke_history.
  - intros calls. now rewrite run_history.
Qed.

(** ** The tools over the process state *)

(** Unfolds the statements of a tool run on a process. *)
Ltac run_statements :=
  unfold in_process, mbind, Proc.Run_bind, Proc.bind, Proc.COURSE_CONTENT,
    Proc.ctx_userdata, Proc.assign, Proc.logger_warning, Proc.eval, Proc.ret;
  cbn [fst snd course_content userdata warnings reply after logged returns raises].

Section ProcessTools.

Context {text : Py.Text} {order : SetOrder} {substrate : Substrate}.

Lemma Proc_list_topics (p : Process) :
  Proc.list_topics p = in_process (list_topics (course_content p) (userdata p)) p.
Proof.
  destruct p as [content ud log].
  unfold Proc.list_topics, list_topics. run_statements.
  destruct (topic_entries content) as [e|entries]; run_statements;
    now rewrite app_nil_r.
Qed.

Lemma Proc_topic (p : Process) :
  Proc.topic p = (TutorState_topic (course_content p) (tutor_state (userdata p)), p).
Proof.
  destruct p as [content ud log].
  unfold Proc.topic, TutorState_topic. run_statements.
  destruct (current_topic_id (tutor_state ud)) as [tid|]; [| reflexivity].
  now case_bool_decide.
Qed.

Lemma Proc_select_topic (topic_id : string) (p : Process) :
  Proc.select_topic topic_id p
  = in_process (select_topic (course_content p) (userdata p) topic_id) p.
Proof.
  unfold Proc.select_topic, select_topic.
  unfold mbind at 1, Proc.Run_bind, Proc.bind at 1, Proc.COURSE_CONTENT.
  unfold mbind at 1, Proc.bind at 1, Proc.eval at 1.
  destruct (next_by_id (course_content p) (Py.lower (Py.strip topic_id)))
    as [e|found].
  { destruct p. run_statements. now rewrite app_nil_r. }
  destruct (falsy found).
  - unfold mbind, Proc.bind. rewrite Proc_list_topics.
    destruct p as [content ud log]. run_statements.
    unfold list_topics.
    destruct (topic_entries content) as [e|entries]; run_statements;
      now rewrite !app_nil_r.
  - destruct p as [content ud log]. run_statements.
    unfold Proc.subscript.
    destruct (default ∅ found !! "title") as [title|]; run_statements;
      now rewrite app_nil_r.
Qed.

Lemma Proc_set_mode (mode : string) (p : Process) :
  Proc.set_mode mode p = in_process (set_mode (userdata p) mode) p.
Proof.
  destruct p as [content [st session] log].
  unfold Proc.set_mode, set_mode.
  case_bool_decide as Hm; run_statements; [now rewrite app_nil_r |].
  unfold with_mode, with_session. cbn [agent_session tutor_state].
  destruct session as [s|]; run_statements; [| now rewrite app_nil_r].
  destruct (has_tts s); run_statements; [| now rewrite app_nil_r].
  unfold Proc.try_update_options, try_update.
  destruct (VOICE_MAP !! Py.lower (Py.strip mode)) as [[voice style]|];
    [| contradiction].
  destruct (tts s) as [| |t]; run_statements; try reflexivity.
  destruct (update_options t voice style) as [t' [e|]]; run_statements;
    [reflexivity | now rewrite app_nil_r].
Qed.

Lemma Proc_explain_topic (p : Process) :
  Proc.explain_topic p = in_process (explain_topic (course_content p) (userdata p)) p.
Proof.
  unfold Proc.explain_topic, explain_topic, mbind, Proc.Run_bind, Proc.bind.
  rewrite Proc_topic. destruct p as [content ud log]. run_statements.
  destruct (TutorState_topic content (tutor_state ud)) as [e|topic];
    [| destruct (falsy topic)]; run_statements; now rewrite app_nil_r.
Qed.

Lemma Proc_ask_quiz (p : Process) :
  Proc.ask_quiz p = in_process (ask_quiz (course_content p) (userdata p)) p.
Proof.
  unfold Proc.ask_quiz, ask_quiz, mbind, Proc.Run_bind, Proc.bind.
  rewrite Proc_topic. destruct p as [content ud log]. run_statements.
  destruct (TutorState_topic content (tutor_state ud)) as [e|topic];
    [| destruct (falsy topic)]; run_statements; now rewrite app_nil_r.
Qed.

Lemma Proc_prompt_teachback (p : Process) :
  Proc.prompt_teachback p
  = in_process (prompt_teachback (course_content p) (userdata p)) p.
Proof.
  unfold Proc.prompt_teachback, prompt_teachback, mbind, Proc.Run_bind, Proc.bind.
  rewrite Proc_topic. destruct p as [content ud log]. run_statements.
  destruct (TutorState_topic content (tutor_state ud)) as [e|topic];
    [| destruct (falsy topic)]; run_statements; now rewrite app_nil_r.
Qed.

Lemma Proc_evaluate_teachback (user_answer : string) (p : Process) :
  Proc.evaluate_teachback user_answer p
  = in_process (evaluate_teachback (course_content p) (userdata p) user_answer) p.
Proof.
  unfold Proc.evaluate_teachback, evaluate_teachback, mbind, Proc.Run_bind, Proc.bind.
  rewrite Proc_topic. destruct p as [content ud log]. run_statements.
  destruct (TutorState_topic content (tutor_state ud)) as [e|topic];
    [| destruct (falsy topic)]; run_statements; try now rewrite app_nil_r.
  destruct (teachback_score (default ∅ topic) user_answer) as [score|];
    run_statements; now rewrite app_nil_r.
Qed.

(** Every tool, run on a process, answers and leaves the userdata as the
    tool over the content of that process does, and leaves the global
    [COURSE_CONTENT] as it found it. *)
Lemma Proc_invoke (c : call) (p : Process) :
  Proc.invoke c p = in_process (invoke (course_content p) c (userdata p)) p.
Proof.
  destruct c; simpl.
  - apply Proc_list_topics.
  - apply Proc_select_topic.
  - apply Proc_set_mode.
  - apply Proc_explain_topic.
  - apply Proc_ask_quiz.
  - apply Proc_prompt_teachback.
  - apply Proc_evaluate_teachback.
Qed.

Lemma Proc_run (calls : list call) (p : Process) :
  course_content (Proc.run calls p) = course_content p
  /\ userdata (Proc.run calls p) = run (course_content p) calls (userdata p).
Proof.
  revert p. induction calls as [|c calls IH]; intros p; [now split |].
  simpl. rewrite Proc_invoke. destruct (IH (snd (in_process
    (invoke (course_content p) c (userdata p)) p))) as [Hc Hu].
  split; [exact Hc | exact Hu].
Qed.

End ProcessTools.

(** ** C4: loading the content *)

Example load_content_ex :
  load_content {| path_exists := inr false; read_text := inr bare_text;
                  json_loads := json_loads bare_host |}
  = inl FileNotFoundError
  /\ load_content locked_host = inl (OSError "Permission denied")
  /\ load_content directory_host = inl (OSError "Is a directory")
  /\ load_content latin1_host = inl UnicodeDecodeError
  /\ load_content {| path_exists := inr true; read_text := inr "[{";
                     json_loads := json_loads bare_host |}
     = inl JSONDecodeError
  /\ load_content {| path_exists := inr true; read_text := inr "7";
                     json_loads := fun _ => inr (JNumber "7") |}
     = inr (JNumber "7").
Proof. repeat split. Qed.



(** * Further properties of the tools *)

(** ** What the reading tools leave alone *)

(** X2: [list_topics], [explain_topic], [ask_quiz], [prompt_teachback] and
    [evaluate_teachback] never change the userdata and never log, on any
    content and in any state, whether they return or raise. *)
Theorem reading_tools_change_nothing {text : Py.Text} {order : SetOrder}
    (content : list TopicRecord) (ud : Userdata) (answer : string) :
  (after (list_topics content ud) = ud /\ logged (list_topics content ud) = [])
  /\ (after (explain_topic content ud) = ud /\ logged (explain_topic content ud) = [])
  /\ (after (ask_quiz content ud) = ud /\ logged (ask_quiz content ud) = [])
  /\ (after (prompt_teachback content ud) = ud
      /\ logged (prompt_teachback content ud) = [])
  /\ (after (evaluate_teachback content ud answer) = ud
      /\ logged (evaluate_teachback content ud answer) = []).
Proof.
  unfold list_topics, explain_topic, ask_quiz, prompt_teachback, evaluate_teachback.
  destruct (topic_entries content);
    destruct (TutorState_topic content (tutor_state ud)) as [err|o];
    try destruct (falsy o);
    try destruct (teachback_score (default ∅ o) answer);
    repeat split.
Qed.

(** ** The mode is always one of the three *)

Lemma set_mode_mode {text : Py.Text} {substrate : Substrate} (ud : Userdata) (m : string) :
  mode (tutor_state (after (set_mode ud m))) = mode (tutor_state ud)
  \/ mode (tutor_state (after (set_mode ud m))) ∈ valid_modes.
Proof.
  destruct (decide (normalize m ∈ valid_modes)) as [Hin | Hout].
  - right. destruct (set_mode_valid ud m) as (_ & ->); [| exact Hin].
    intros Hnone. now apply VOICE_MAP_keys in Hnone.
  - left. apply VOICE_MAP_keys in Hout. now rewrite (set_mode_invalid ud m Hout).
Qed.

Lemma invoke_mode {text : Py.Text} {order : SetOrder} {substrate : Substrate}
    (content : list TopicRecord) (c : call) (ud : Userdata) :
  mode (tutor_state ud) ∈ valid_modes ->
  mode (tutor_state (after (invoke content c ud))) ∈ valid_modes.
Proof.
  intros Hinv.
  destruct (reading_tools_after content ud) as (Hl & He & Hq & Hp & Hv).
  destruct c as [|s|m| | | |answer]; simpl.
  - now rewrite Hl.
  - destruct (select_topic_after content ud s) as [-> | (t & _ & ->)]; exact Hinv.
  - destruct (set_mode_mode ud m) as [-> | Hm]; assumption.
  - now rewrite He.
  - now rewrite Hq.
  - now rewrite Hp.
  - now rewrite Hv.
Qed.

(** X3: in every state a session can reach from its start by tool
    invocations, the mode is learn, quiz or teach_back, so that it always has
    an entry in [VOICE_MAP]. *)
Theorem mode_always_valid {text : Py.Text} {order : SetOrder} {substrate : Substrate}
    (content : list TopicRecord) (calls : list call) :
  mode (tutor_state (run content calls entrypoint_userdata)) ∈ valid_modes
  /\ is_Some (VOICE_MAP !! mode (tutor_state (run content calls entrypoint_userdata))).
Proof.
  assert (Hgen : forall ud, mode (tutor_state ud) ∈ valid_modes ->
                   mode (tutor_state (run content calls ud)) ∈ valid_modes).
  { induction calls as [|c calls IH]; intros ud Hinv; simpl; [exact Hinv |].
    apply IH, invoke_mode, Hinv. }
  assert (Hin : mode (tutor_state (run content calls entrypoint_userdata)) ∈ valid_modes).
  { apply Hgen. apply list_elem_of_here. }
  split; [exact Hin |].
  destruct (VOICE_MAP !! mode (tutor_state (run content calls entrypoint_userdata)))
    eqn:Hlook; [now eexists |].
  apply VOICE_MAP_keys in Hlook. contradiction.
Qed.

(** ** When the listing raises *)

Lemma topic_entries_inr_well_formed (content : list TopicRecord) (entries : list string) :
  topic_entries content = inr entries -> well_formed content.
Proof.
  revert entries. induction content as [|t rest IH]; intros entries; simpl.
  - intros _. constructor.
  - unfold topic_entry.
    destruct (t !! "id") as [i|] eqn:Hi; [| discriminate].
    destruct (t !! "title") as [ti|] eqn:Hti; [| discriminate].
    destruct (topic_entries rest) as [e|ss]; [discriminate |].
    intros _. constructor; [split; eauto | now apply (IH ss)].
Qed.

(** The listing stops at the first record whose entry raises, with that
    exception. *)
Lemma topic_entries_first_defect (before rest : list TopicRecord) (t : TopicRecord)
    (e : exn) :
  well_formed before ->
  topic_entry t = inl e ->
  topic_entries (before ++ t :: rest) = inl e.
Proof.
  intros Hwf Ht. induction Hwf as [|u before [[i Hi] [ti Hti]] _ IH]; simpl.
  - now rewrite Ht.
  - unfold topic_entry at 1. now rewrite Hi, Hti, IH.
Qed.

(** X4: [list_topics] returns a string exactly when every record carries an
    ["id"] and a ["title"]; on empty content it returns the bare heading;
    otherwise it raises the [KeyError] of the first missing field of the first
    defective record: ["id"] when that record has no identifier, ["title"] when
    it has one but no title. *)
Theorem list_topics_raises_iff (content : list TopicRecord) (ud : Userdata) :
  ((exists text, reply (list_topics content ud) = inr text) <-> well_formed content)
  /\ list_topics [] ud = returns "Available topics: " ud
  /\ (forall before t rest,
        content = (before ++ t :: rest)%list -> well_formed before ->
        (t !! "id" = None -> list_topics content ud = raises (KeyError "id") ud)
        /\ (is_Some (t !! "id") -> t !! "title" = None ->
            list_topics content ud = raises (KeyError "title") ud)).
Proof.
  split; [| split].
  - unfold list_topics. split.
    + intros [text Htext]. destruct (topic_entries content) as [e|entries] eqn:Hent;
        [discriminate | now apply (topic_entries_inr_well_formed content entries)].
    + intros Hwf. destruct (topic_entries_well_formed content Hwf) as (entries & -> & _).
      now eexists.
  - reflexivity.
  - intros before t rest -> Hwf. unfold list_topics. split.
    + intros Hid.
      rewrite (topic_entries_first_defect before rest t (KeyError "id") Hwf);
        [reflexivity | unfold topic_entry; now rewrite Hid].
    + intros [i Hid] Htitle.
      rewrite (topic_entries_first_defect before rest t (KeyError "title") Hwf);
        [reflexivity | unfold topic_entry; now rewrite Hid, Htitle].
Qed.

(** ** Selecting on defective content *)

Section SelectingMore.

Context {text : Py.Text} {order : SetOrder} {substrate : Substrate}.
Variable COURSE_CONTENT : list TopicRecord.

Lemma select_topic_found_after (ud : Userdata) (s : string) (t : TopicRecord) :
  next_by_id COURSE_CONTENT (normalize s) = inr (Some t) ->
  after (select_topic COURSE_CONTENT ud s) = with_topic_id ud (normalize s)
  /\ reply (select_topic COURSE_CONTENT ud s)
     = match t !! "title" with
       | Some title => inr ("Selected topic: " +:+ title +:+ ".")
       | None => inl (KeyError "title")
       end.
Proof.
  intros Hfind. unfold select_topic. fold (normalize s). rewrite Hfind. simpl.
  rewrite bool_decide_eq_false_2 by (eapply next_by_id_not_empty, Hfind).
  now destruct (t !! "title").
Qed.

Lemma next_by_id_raises (before rest : list TopicRecord) (u : TopicRecord) (tid : string) :
  Forall (fun v => exists i, v !! "id" = Some i /\ i ≠ tid) before ->
  u !! "id" = None ->
  next_by_id (before ++ u :: rest) tid = inl (KeyError "id").
Proof.
  intros Hb Hu. induction Hb as [|v before [i [Hi Hne]] _ IH]; simpl.
  - now rewrite Hu.
  - rewrite Hi. now rewrite bool_decide_eq_false_2.
Qed.

Lemma topic_of_selected (ud : Userdata) (tid : string) (t : TopicRecord) :
  next_by_id COURSE_CONTENT tid = inr (Some t) -> tid ≠ "" ->
  TutorState_topic COURSE_CONTENT (tutor_state (with_topic_id ud tid)) = inr (Some t).
Proof.
  intros Hfind Hne. unfold TutorState_topic. simpl.
  now rewrite bool_decide_eq_false_2.
Qed.

End SelectingMore.

(** X5: when the record that [select_topic] finds has no ["title"], the call
    raises [KeyError] for the title, but the topic is selected all the same:
    [current_topic_id] was assigned before the reply was built. *)
Theorem select_topic_without_title {text : Py.Text} (content : list TopicRecord)
    (ud : Userdata)
    (s : string) (t : TopicRecord) :
  next_by_id content (normalize s) = inr (Some t) ->
  t !! "title" = None ->
  reply (select_topic content ud s) = inl (KeyError "title")
  /\ current_topic_id (tutor_state (after (select_topic content ud s)))
     = Some (normalize s)
  /\ mode (tutor_state (after (select_topic content ud s))) = mode (tutor_state ud)
  /\ agent_session (after (select_topic content ud s)) = agent_session ud.
Proof.
  intros Hfind Htitle.
  destruct (select_topic_found_after content ud s t Hfind) as [-> ->].
  rewrite Htitle. now repeat split.
Qed.

Lemma select_topic_without_title_witness :
  reply (select_topic (text := plain_text)
           bare_document entrypoint_userdata " Loops") = inl (KeyError "title")
  /\ current_topic_id
       (tutor_state (after (select_topic (text := plain_text)
                              bare_document entrypoint_userdata " Loops")))
     = Some (normalize (text := plain_text) " Loops")
  /\ mode (tutor_state (after (select_topic (text := plain_text)
                                 bare_document entrypoint_userdata " Loops")))
     = mode (tutor_state entrypoint_userdata)
  /\ agent_session (after (select_topic (text := plain_text)
                             bare_document entrypoint_userdata " Loops"))
     = agent_session entrypoint_userdata.
Proof.
  apply (select_topic_without_title (text := plain_text)
           bare_document entrypoint_userdata " Loops" {[ "id" := "loops" ]}).
  - vm_compute. reflexivity.
  - vm_compute. reflexivity.
Defined.

(** X6: when the scan meets a record without ["id"] before any record that
    stores the wanted identifier, [select_topic] raises [KeyError] for the
    identifier instead of answering "not found" or selecting a later record,
    and the userdata stays as it was. *)
Theorem select_topic_scan_raises {text : Py.Text} (ud : Userdata) (s : string)
    (before rest : list TopicRecord) (u : TopicRecord) :
  Forall (fun v => exists i, v !! "id" = Some i /\ i ≠ normalize s) before ->
  u !! "id" = None ->
  select_topic (before ++ u :: rest) ud s = raises (KeyError "id") ud.
Proof.
  intros Hb Hu. unfold select_topic. fold (normalize s).
  now rewrite (next_by_id_raises before rest u (normalize s) Hb Hu).
Qed.

Lemma select_topic_scan_raises_witness :
  select_topic (text := plain_text) ([ai_topic] ++ {[ "title" := "Orphan" ]} :: [loops_topic])
    entrypoint_userdata "loops"
  = raises (KeyError "id") entrypoint_userdata.
Proof.
  apply (select_topic_scan_raises (text := plain_text)
           entrypoint_userdata "loops" [ai_topic] [loops_topic] {[ "title" := "Orphan" ]}).
  - repeat constructor. exists "ai". split; [reflexivity | discriminate].
  - reflexivity.
Defined.

(** ** Selecting, then reading *)

(** X7: after [select_topic(s)] has found a record under a non-empty
    identifier, the reading tools answer from that record: [explain_topic]
    with its summary, [ask_quiz] with its sample question, [prompt_teachback]
    with its teaching prompt, or else its sample question, each with its fixed
    fallback text when the record lacks the field; none of them raises or
    changes the state. *)
Theorem select_then_read {text : Py.Text} (content : list TopicRecord) (ud : Userdata)
    (s : string)
    (t : TopicRecord) :
  next_by_id content (normalize s) = inr (Some t) ->
  normalize s ≠ "" ->
  let ud' := after (select_topic content ud s) in
  explain_topic content ud'
  = returns (default "No summary available." (t !! "summary")) ud'
  /\ ask_quiz content ud'
     = returns (default "No sample question available." (t !! "sample_question")) ud'
  /\ prompt_teachback content ud'
     = returns
         match t !! "teaching_prompt", t !! "sample_question" with
         | Some prompt, _ => prompt
         | None, Some question => question
         | None, None => "Please explain this topic back to me."
         end ud'.
Proof.
  intros Hfind Hne ud'.
  destruct (select_topic_found_after content ud s t Hfind) as [Hafter _].
  pose proof (topic_of_selected content ud (normalize s) t Hfind Hne) as Htopic.
  unfold ud'. rewrite Hafter.
  unfold explain_topic, ask_quiz, prompt_teachback. rewrite Htopic. simpl.
  rewrite bool_decide_eq_false_2 by (eapply next_by_id_not_empty, Hfind).
  unfold get. repeat split.
Qed.

Lemma select_then_read_witness :
  let ud' := after (select_topic (text := plain_text)
                      [scenario_topic] entrypoint_userdata "LOOPS ") in
  explain_topic [scenario_topic] ud'
  = returns (default "No summary available." (scenario_topic !! "summary")) ud'
  /\ ask_quiz [scenario_topic] ud'
     = returns (default "No sample question available."
                  (scenario_topic !! "sample_question")) ud'
  /\ prompt_teachback [scenario_topic] ud'
     = returns
         match scenario_topic !! "teaching_prompt", scenario_topic !! "sample_question" with
         | Some prompt, _ => prompt
         | None, Some question => question
         | None, None => "Please explain this topic back to me."
         end ud'.
Proof.
  apply (select_then_read (text := plain_text)
           [scenario_topic] entrypoint_userdata "LOOPS " scenario_topic).
  - vm_compute. reflexivity.
  - vm_compute. discriminate.
Defined.

(** ** The score and the answer *)

Lemma count_if_mono {A} (p q : A -> bool) (xs : list A) :
  (forall x, x ∈ xs -> p x = true -> q x = true) ->
  Py.count_if p xs <= Py.count_if q xs.
Proof.
  induction xs as [|x xs IH]; intros Himp; simpl; [lia |].
  assert (IH' : Py.count_if p xs <= Py.count_if q xs).
  { apply IH. intros y Hy. apply Himp. now apply list_elem_of_further. }
  destruct (p x) eqn:Hp.
  - rewrite (Himp x (list_elem_of_here _ _) Hp). lia.
  - destruct (q x); lia.
Qed.

Lemma clamp_div_mono (a b t : Z) :
  (a <= b)%Z -> (0 < t)%Z ->
  (Z.max 1 (Z.min 10 (10 * a / t)) <= Z.max 1 (Z.min 10 (10 * b / t)))%Z.
Proof.
  intros Hab Ht.
  assert (Hdiv : (10 * a / t <= 10 * b / t)%Z) by (apply Z.div_le_mono; lia).
  lia.
Qed.

Lemma len_append (a b : string) : Py.len (a +:+ b) = Py.len a + Py.len b.
Proof.
  induction a as [|c a IH]; [reflexivity |].
  rewrite append_cons. simpl. rewrite IH. now destruct (Py.is_continuation c).
Qed.

(** A text holds no text of more characters than its own. *)
Lemma contains_len (needle hay : string) :
  Py.contains needle hay = true -> Py.len needle <= Py.len hay.
Proof.
  intros (a & b & ->)%contains_spec. rewrite !len_append. lia.
Qed.

(** X8: the score never falls when the answer covers more: if every keyword
    of the selected topic that occurs in the lower-cased form of one answer
    occurs in the lower-cased form of another, the second answer scores at
    least as much as the first. *)
Theorem score_monotone {text : Py.Text} {order : SetOrder} (content : list TopicRecord)
    (ud : Userdata)
    (d : TopicRecord) (answer1 answer2 : string) :
  TutorState_topic content (tutor_state ud) = inr (Some d) ->
  (forall kw, kw ∈ keywords_of d ->
     Py.contains kw (Py.lower answer1) = true ->
     Py.contains kw (Py.lower answer2) = true) ->
  exists score1 score2 : Z,
    evaluate_teachback content ud answer1
    = returns (feedback_of score1 +:+ " (score: " +:+ Py.str score1 +:+ "/10)") ud
    /\ evaluate_teachback content ud answer2
       = returns (feedback_of score2 +:+ " (score: " +:+ Py.str score2 +:+ "/10)") ud
    /\ (score1 <= score2)%Z.
Proof.
  intros Ht Hcover.
  pose proof (teachback_score_floor d answer1) as Hs1.
  pose proof (teachback_score_floor d answer2) as Hs2.
  set (score1 := Z.max 1 _) in Hs1. set (score2 := Z.max 1 _) in Hs2.
  exists score1, score2.
  split; [now apply (evaluate_teachback_reply content ud d) |].
  split; [now apply (evaluate_teachback_reply content ud d) |].
  unfold score1, score2. apply clamp_div_mono; [| lia].
  apply inj_le. now apply count_if_mono.
Qed.

Lemma score_monotone_witness :
  exists score1 score2 : Z,
    evaluate_teachback (text := plain_text) (order := last_seen_order)
      [loops_topic] (selected "loops") "Loops repeat"
    = returns (feedback_of score1 +:+ " (score: " +:+ Py.str score1 +:+ "/10)")
        (selected "loops")
    /\ evaluate_teachback (text := plain_text) (order := last_seen_order)
         [loops_topic] (selected "loops") "Loops repeat blocks"
       = returns (feedback_of score2 +:+ " (score: " +:+ Py.str score2 +:+ "/10)")
           (selected "loops")
    /\ (score1 <= score2)%Z.
Proof.
  apply (score_monotone (text := plain_text) (order := last_seen_order)
           [loops_topic] (selected "loops") loops_topic "Loops repeat" "Loops repeat blocks").
  - vm_compute. reflexivity.
  - intros kw _. change (Py.lower (Text := plain_text) "Loops repeat blocks")
      with (Py.lower (Text := plain_text) "Loops repeat" +:+ " blocks").
    apply contains_app_l.
Defined.

(** X10: an answer whose lower-cased form has fewer than four characters,
    the empty answer among them, holds no keyword, since every keyword is
    longer than three characters: it scores 1 and gets the "needs
    improvement" feedback. *)
Theorem short_answer_scores_one {text : Py.Text} {order : SetOrder}
    (content : list TopicRecord) (ud : Userdata) (d : TopicRecord) (answer : string) :
  TutorState_topic content (tutor_state ud) = inr (Some d) ->
  Py.len (Py.lower answer) <= 3 ->
  evaluate_teachback content ud answer
  = returns "Needs improvement — try a short definition and an example. (score: 1/10)" ud.
Proof.
  intros Ht Hshort.
  assert (Hnone : Py.count_if (fun kw => Py.contains kw (Py.lower answer)) (keywords_of d)
                  = 0).
  { apply count_if_none. intros kw Hkw.
    destruct (keywords_of_spec d) as (_ & Hlong & _).
    apply Hlong, keep_if_elem in Hkw as [_ Hlen]. apply Nat.ltb_lt in Hlen.
    destruct (Py.contains kw (Py.lower answer)) eqn:Hc; [| reflexivity].
    apply contains_len in Hc. lia. }
  pose proof (teachback_score_floor d answer) as Hscore. rewrite Hnone in Hscore.
  rewrite Z.mul_0_r, Z.div_0_l in Hscore by lia.
  now rewrite (evaluate_teachback_reply content ud d answer 1%Z Ht Hscore).
Qed.

Lemma short_answer_scores_one_witness :
  evaluate_teachback (text := plain_text) (order := last_seen_order) [loops_topic]
    (selected "loops") "Yes"
  = returns "Needs improvement — try a short definition and an example. (score: 1/10)"
      (selected "loops").
Proof.
  apply (short_answer_scores_one (text := plain_text) (order := last_seen_order)
           [loops_topic] (selected "loops") loops_topic "Yes").
  - vm_compute. reflexivity.
  - vm_compute. lia.
Defined.

(** ** The voice of a mode *)

Lemma VOICE_MAP_entries (m : string) :
  m ∈ valid_modes ->
  exists voice style,
    VOICE_MAP !! m = Some (voice, style)
    /\ (m, voice, style) ∈ voice_table.
Proof.
  unfold valid_modes, voice_table. rewrite !elem_of_cons.
  intros [-> | [-> | [-> | H]]]; [| | | inversion H]; do 2 eexists;
    (split; [reflexivity |]); rewrite !elem_of_cons; auto.
Qed.

(** X11: for a valid mode [set_mode] passes the voice and style of that mode
    (Matthew and Promo for learn, Alicia and Conversation for quiz, Ken and
    Conversational for teach_back) to the synthesiser of the session, keeps
    what the update left of the synthesiser, also when the update raised, and
    logs exactly that failure. A missing session, or one without a [tts]
    attribute, is left alone in silence; a [tts] attribute that is [None] is
    left alone with a warning. *)
Theorem set_mode_reconfigures_voice {text : Py.Text} {substrate : Substrate}
    (ud : Userdata) (m : string) :
  m ∈ valid_modes ->
  match agent_session ud with
  | None =>
      agent_session (after (set_mode ud m)) = None /\ logged (set_mode ud m) = []
  | Some s =>
      match tts s with
      | NoAttribute =>
          agent_session (after (set_mode ud m)) = Some s /\ logged (set_mode ud m) = []
      | AttributeNone =>
          agent_session (after (set_mode ud m)) = Some s
          /\ logged (set_mode ud m)
             = ["TTS update failed: 'NoneType' object has no attribute 'update_options'"]
      | Synthesiser t =>
          exists voice style,
            (m, voice, style) ∈ voice_table
            /\ agent_session (after (set_mode ud m))
               = Some {| tts := Synthesiser (fst (update_options t voice style)) |}
            /\ logged (set_mode ud m) = warning_of (snd (update_options t voice style))
      end
  end.
Proof.
  intros Hm. destruct (VOICE_MAP_entries m Hm) as (voice & style & Hlook & Htable).
  pose proof (valid_modes_normal m Hm) as Hnorm. unfold normalize in Hnorm.
  unfold set_mode. rewrite Hnorm, bool_decide_eq_false_2 by congruence. simpl.
  destruct (agent_session ud) as [s|]; [| now split].
  unfold has_tts, try_update. rewrite Hlook.
  destruct (tts s) as [| |t] eqn:Htts; simpl; [now split | now split |].
  exists voice, style. split; [exact Htable |].
  now destruct (update_options t voice style) as [t' raised].
Qed.

Lemma set_mode_reconfigures_voice_witness :
  exists voice style,
    ("quiz", voice, style) ∈ voice_table
    /\ agent_session (after (set_mode (text := plain_text) (substrate := obliging)
                               entrypoint_userdata "quiz"))
       = Some {| tts :=
                   Synthesiser
                     (fst (update_options (Substrate := obliging)
                             {| voice := "en-US-matthew"; style := "Promo" |}
                             voice style)) |}
    /\ logged (set_mode (text := plain_text) (substrate := obliging) entrypoint_userdata "quiz")
       = warning_of
           (snd (update_options (Substrate := obliging)
                   {| voice := "en-US-matthew"; style := "Promo" |} voice style)).
Proof.
  apply (set_mode_reconfigures_voice (text := plain_text) (substrate := obliging)
           entrypoint_userdata "quiz").
  unfold valid_modes. apply list_elem_of_further, list_elem_of_here.
Defined.

(** ** The agent *)

Lemma topic_entries_elem (content : list TopicRecord) (entries : list string)
    (t : TopicRecord) (i ti : string) :
  topic_entries content = inr entries ->
  t ∈ content -> t !! "id" = Some i -> t !! "title" = Some ti ->
  (i +:+ " (" +:+ ti +:+ ")") ∈ entries.
Proof.
  revert entries. induction content as [|u rest IH]; intros entries Hent Hin Hi Hti.
  - inversion Hin.
  - simpl in Hent. destruct (topic_entry u) as [e|su] eqn:Hu; [discriminate |].
    destruct (topic_entries rest) as [e|ss]; [discriminate |].
    injection Hent as <-. apply elem_of_cons in Hin as [-> | Hin].
    + unfold topic_entry in Hu. rewrite Hi, Hti in Hu. injection Hu as <-.
      apply list_elem_of_here.
    + apply list_elem_of_further. now apply IH.
Qed.

(** X12: [TeachTutorAgent()] can be constructed exactly when every record
    carries an ["id"] and a ["title"], that is exactly when [list_topics]
    returns; otherwise it raises the same [KeyError] as [list_topics]. The
    instructions of a constructed agent name every topic as ["id (title)"]
    after the heading ["Available topics: "], and the agent registers the
    seven tools. *)
Theorem agent_construction (content : list TopicRecord) :
  ((exists agent, TeachTutorAgent content = inr agent) <-> well_formed content)
  /\ (forall (e : exn) (ud : Userdata),
        TeachTutorAgent content = inl e <-> list_topics content ud = raises e ud)
  /\ (forall agent, TeachTutorAgent content = inr agent ->
        length (tools agent) = 7
        /\ Py.contains "Available topics: " (instructions agent) = true
        /\ forall t i ti, t ∈ content -> t !! "id" = Some i -> t !! "title" = Some ti ->
             Py.contains (i +:+ " (" +:+ ti +:+ ")") (instructions agent) = true).
Proof.
  unfold TeachTutorAgent, list_topics.
  destruct (topic_entries content) as [e0|entries] eqn:Hent.
  - split; [| split].
    + split; [intros [agent Ha]; discriminate |].
      intros Hwf. destruct (topic_entries_well_formed content Hwf) as (es & Hes & _).
      congruence.
    + intros e ud. unfold raises. split; intros H; injection H as ->; reflexivity.
    + intros agent Ha. discriminate.
  - split; [| split].
    + split; [intros _; now apply (topic_entries_inr_well_formed content entries) |].
      intros _. now eexists.
    + intros e ud. unfold raises, returns. split; discriminate.
    + intros agent [= <-]. cbn [instructions tools]. split; [reflexivity |]. split.
      * do 19 apply contains_app_r.
        exact (contains_middle "" "Available topics: " (Py.join ", " entries +:+ nl)).
      * intros t i ti Hin Hi Hti. do 20 apply contains_app_r.
        apply contains_app_l, contains_join.
        exists (i +:+ " (" +:+ ti +:+ ")"). split.
        -- now apply (topic_entries_elem content entries t).
        -- rewrite <- (append_nil_r (i +:+ " (" +:+ ti +:+ ")")) at 2.
           exact (contains_middle "" (i +:+ " (" +:+ ti +:+ ")") "").
Qed.

(** ** The entry point *)

(** X14: once the session is started, a failure of the greeting is
    swallowed without a log record (it is logged at [DEBUG], below the
    logger's level [INFO]) and the run loop is entered all the same; a failure
    of the run loop is caught and logged at [ERROR], and [entrypoint] returns
    normally. *)
Theorem entrypoint_swallows_failures (aw : Awaits) (content : list TopicRecord)
    (agent : Agent) :
  connect_raises aw = None ->
  TeachTutorAgent content = inr agent ->
  start_raises aw = None ->
  failed (entrypoint aw content) = None
  /\ steps (entrypoint aw content)
     = [OnMetricsCollected; AddShutdownCallback; CallConnect; CallStart agent;
        CallSay "Hello! I'm your tutor. Which mode would you like: learn, quiz, or teach-back?";
        CallRun]
  /\ records (entrypoint aw content)
     = match run_raises aw with
       | Some e => [(ERROR, "session.run failed: " +:+ e)]
       | None => []
       end
  /\ bound_userdata (entrypoint aw content) = entrypoint_userdata.
Proof.
  intros Hc Ha Hs. unfold entrypoint. rewrite Hc, Ha, Hs. simpl.
  repeat split. now destruct (say_raises aw), (run_raises aw).
Qed.

Lemma entrypoint_swallows_failures_witness :
  exists agent,
    TeachTutorAgent [scenario_topic] = inr agent
    /\ failed (entrypoint greeting_and_run_fail [scenario_topic]) = None
    /\ steps (entrypoint greeting_and_run_fail [scenario_topic])
       = [OnMetricsCollected; AddShutdownCallback; CallConnect; CallStart agent;
          CallSay
            "Hello! I'm your tutor. Which mode would you like: learn, quiz, or teach-back?";
          CallRun]
    /\ records (entrypoint greeting_and_run_fail [scenario_topic])
       = match run_raises greeting_and_run_fail with
         | Some e => [(ERROR, "session.run failed: " +:+ e)]
         | None => []
         end
    /\ bound_userdata (entrypoint greeting_and_run_fail [scenario_topic])
       = entrypoint_userdata.
Proof.
  destruct (TeachTutorAgent [scenario_topic]) as [e|agent] eqn:Ha;
    [vm_compute in Ha; discriminate |].
  exists agent. split; [reflexivity |].
  now apply (entrypoint_swallows_failures greeting_and_run_fail [scenario_topic] agent).
Defined.

(** ** One selection after another *)

Lemma select_then_read_state {text : Py.Text} (content : list TopicRecord) (ud : Userdata)
    (s : string)
    (t : TopicRecord) :
  next_by_id content (normalize s) = inr (Some t) ->
  normalize s ≠ "" ->
  current_topic_id (tutor_state (after (select_topic content ud s))) = Some (normalize s)
  /\ explain_topic content (after (select_topic content ud s))
     = returns (default "No summary available." (t !! "summary"))
         (after (select_topic content ud s)).
Proof.
  intros Hfind Hne.
  destruct (select_topic_found_after content ud s t Hfind) as [Hafter _].
  pose proof (topic_of_selected content ud (normalize s) t Hfind Hne) as Htopic.
  rewrite Hafter. split; [reflexivity |].
  unfold explain_topic. rewrite Htopic. simpl.
  now rewrite bool_decide_eq_false_2 by (eapply next_by_id_not_empty, Hfind).
Qed.

(** X15: of two selections in a row the second wins when it finds a
    record; when it finds none, because no record stores the identifier or
    because the scan raises, the first selection stays in force and the reading
    tools go on answering from its record. *)
Theorem second_selection {text : Py.Text} (content : list TopicRecord) (ud : Userdata)
    (s1 s2 : string)
    (t1 : TopicRecord) :
  next_by_id content (normalize s1) = inr (Some t1) ->
  normalize s1 ≠ "" ->
  let ud2 := after (select_topic content (after (select_topic content ud s1)) s2) in
  (forall t2, next_by_id content (normalize s2) = inr (Some t2) -> normalize s2 ≠ "" ->
     current_topic_id (tutor_state ud2) = Some (normalize s2)
     /\ explain_topic content ud2
        = returns (default "No summary available." (t2 !! "summary")) ud2)
  /\ ((forall t2, next_by_id content (normalize s2) ≠ inr (Some t2)) ->
      current_topic_id (tutor_state ud2) = Some (normalize s1)
      /\ explain_topic content ud2
         = returns (default "No summary available." (t1 !! "summary")) ud2).
Proof.
  intros Hfind1 Hne1 ud2. split.
  - intros t2 Hfind2 Hne2.
    destruct (select_then_read_state content (after (select_topic content ud s1)) s2 t2
                Hfind2 Hne2) as [Hid Hexplain].
    split; [exact Hid | exact Hexplain].
  - intros Hmiss.
    destruct (select_topic_after content (after (select_topic content ud s1)) s2)
      as [Hsame | (t2 & Hfind2 & _)]; [| now destruct (Hmiss t2)].
    unfold ud2. rewrite Hsame.
    destruct (select_then_read_state content ud s1 t1 Hfind1 Hne1) as [Hid Hexplain].
    split; [exact Hid | exact Hexplain].
Qed.

Lemma second_selection_witness :
  let content := [scenario_topic; ai_topic] in
  let tid1 := normalize (text := plain_text) "Loops" in
  let tid2 := normalize (text := plain_text) "recursion" in
  let ud1 := after (select_topic (text := plain_text) content entrypoint_userdata "Loops") in
  let ud2 := after (select_topic (text := plain_text) content ud1 "recursion") in
  (forall t2, next_by_id content tid2 = inr (Some t2) -> tid2 ≠ "" ->
     current_topic_id (tutor_state ud2) = Some tid2
     /\ explain_topic content ud2
        = returns (default "No summary available." (t2 !! "summary")) ud2)
  /\ ((forall t2, next_by_id content tid2 ≠ inr (Some t2)) ->
      current_topic_id (tutor_state ud2) = Some tid1
      /\ explain_topic content ud2
         = returns (default "No summary available." (scenario_topic !! "summary")) ud2).
Proof.
  cbv zeta.
  apply (second_selection (text := plain_text) [scenario_topic; ai_topic]
           entrypoint_userdata "Loops" "recursion" scenario_topic).
  - vm_compute. reflexivity.
  - vm_compute. discriminate.
Defined.
